(** * Memphis Tours ERP to Google Sheets sync: a shallow embedding

    The development follows [robust_sync.py] (class
    [RobustMemphisToursSync]) and [exact_order_sheet_setup.py].

    - Python values that travel through lead dictionaries and sheet cells
      are the type [pyval]; dictionaries keyed by strings are
      [gmap string pyval].
    - The worksheet keeps the cells as they were written.  Reading it
      back goes through gspread's [get_all_records], which turns the text
      of a cell into a number where [int] or [float] accept it; the
      values it returns are the type [read_value], and the set of
      existing tokens is a [gset read_value].
    - Strings are byte strings.  [lower] lower-cases the ASCII letters,
      which is what [str.lower] does on every byte sequence the substring
      tests of the program can match (their needles are ASCII).
    - Calls that leave the process (file system, imports, HTTP, the
      spreadsheet API) are answered by an explicit environment, and the
      calls a function issues are recorded, in order, in a trace.
    - Logging and printing only write to the log sink and the console and
      never change a result; the [logger] and [print] calls are left
      out. *)

From Stdlib Require Import Ascii String.
From stdpp Require Import base gmap sets list strings pretty.

Open Scope string_scope.
Open Scope list_scope.
Open Scope Z_scope.

(** ** Python values *)

Module Py.

Inductive pyval : Type :=
  | VNone
  | VStr (s : string)
  | VInt (n : Z).

#[global] Instance pyval_eq_dec : EqDecision pyval.
Proof. solve_decision. Defined.

Definition pyval_enc (v : pyval) : unit + (string + Z) :=
  match v with
  | VNone => inl tt
  | VStr s => inr (inl s)
  | VInt n => inr (inr n)
  end.

Definition pyval_dec (x : unit + (string + Z)) : pyval :=
  match x with
  | inl _ => VNone
  | inr (inl s) => VStr s
  | inr (inr n) => VInt n
  end.

#[global] Instance pyval_countable : Countable pyval.
Proof. apply (inj_countable' pyval_enc pyval_dec). by intros []. Defined.

(** [str(v)] *)
Definition py_str (v : pyval) : string :=
  match v with
  | VNone => "None"
  | VStr s => s
  | VInt n => pretty n
  end.

(** Truth value of [v] in a condition ([if v], [not v]). *)
Definition truthy (v : pyval) : bool :=
  match v with
  | VNone => false
  | VStr s => negb (String.eqb s "")
  | VInt n => negb (n =? 0)
  end.

(** [v == n] for an integer literal [n]. *)
Definition py_eq_int (v : pyval) (n : Z) : bool :=
  match v with
  | VInt m => m =? n
  | _ => false
  end.

(** [v > n] for an integer literal [n]; [None] stands for the [TypeError]
    raised when [v] is not a number. *)
Definition py_gt_int (v : pyval) (n : Z) : option bool :=
  match v with
  | VInt m => Some (n <? m)
  | _ => None
  end.

Definition lower_ascii (c : ascii) : ascii :=
  let n := Ascii.N_of_ascii c in
  if ((65 <=? n) && (n <=? 90))%N then Ascii.ascii_of_N (n + 32) else c.

(** [s.lower()] *)
Fixpoint lower (s : string) : string :=
  match s with
  | EmptyString => EmptyString
  | String c r => String (lower_ascii c) (lower r)
  end.

(** [needle in hay] on strings *)
Fixpoint contains (needle hay : string) : bool :=
  String.prefix needle hay ||
  match hay with
  | EmptyString => false
  | String _ r => contains needle r
  end.

(** [sep.join(parts)] *)
Definition join (sep : string) (parts : list string) : string :=
  String.concat sep parts.

(** [d.get(key, default)] on a dictionary with string keys *)
Definition dict_get (d : gmap string pyval) (key : string) (default : pyval)
  : pyval :=
  match d !! key with
  | Some v => v
  | None => default
  end.

(** [hay] has [needle] as a contiguous substring. *)
Definition Substring (needle hay : string) : Prop :=
  ∃ pre post, hay = pre +:+ needle +:+ post.

(** [hay] has [needle] as a substring once upper and lower case are
    identified. *)
Definition SubstringCI (needle hay : string) : Prop :=
  Substring (lower needle) (lower hay).

End Py.

Import Py.

(** ** Agent scorer: [RobustMemphisToursSync.score_sales_agent] *)

Module Scorer.

(** The first [if]/[elif]/[else] chain, starting from the default pair. *)
Definition base_score (communications_count : pyval) : Z * string :=
  let score := 5 in
  let recommendation := "Standard performance" in
  if py_eq_int communications_count 0 then
    (3, "No response from agent yet")
  else if py_eq_int communications_count 1 then
    (6, "Initial contact made, needs follow-up")
  else
    (8, "Active communication maintained").

(** [str(lead_status).lower() if lead_status else ''] *)
Definition status_of (lead_status : pyval) : string :=
  if truthy lead_status then lower (py_str lead_status) else "".

Definition error_score : Z * string := (5, "Error calculating score").

Definition score_sales_agent (communications_count lead_status : pyval)
  : Z * string :=
  let '(score, recommendation) := base_score communications_count in
  let status := status_of lead_status in
  if contains "confirmed" status then
    (Z.min 10 (score + 2), "Lead successfully converted")
  else if contains "new" status then
    match py_gt_int communications_count 0 with
    | Some true => (Z.max 1 (score - 1), "Response needed for new lead")
    | Some false => (score, recommendation)
    | None => error_score
    end
  else
    (score, recommendation).

End Scorer.

Import Scorer.

(** ** Calls to the outside world *)

Module World.

(** A call that leaves the process. *)
Inductive event : Type :=
  | PathExists (path : string)
  | LoadJson (path : string)
  | ImportModule (name : string)
  | HttpGet (url : string) (timeout : Z)
  | OpenByKey (key : string)
  | GetWorksheet (index : Z)
  | SheetClear
  | SheetInsertRow (values : list pyval) (index : Z)
  | SheetFormat (range : string).

(** A computation together with the calls it issued, oldest first. *)
Definition traced (A : Type) : Type := A * list event.

#[global] Instance traced_ret : MRet traced := λ A x, (x, []).
#[global] Instance traced_bind : MBind traced :=
  λ A B f m, let '(y, t) := f m.1 in (y, m.2 ++ t).

(** Issue the call [e]; the world answers [answer]. *)
Definition call {A : Type} (e : event) (answer : A) : traced A :=
  (answer, [e]).

(** [__import__(name)] *)
Inductive import_result : Type :=
  | Imported
  | RaisedImportError
  | RaisedOther.

(** Body of an HTTP response, as [response.json()] sees it. *)
Inductive json_body : Type :=
  | JsonInvalid
  | JsonObject (data : gmap string pyval)
  | JsonNotObject.

(** [requests.get(url, timeout=...)]: an exception (no connection, DNS
    failure, timeout, ...) or a response with a status code. *)
Inductive http_result : Type :=
  | HttpRaised
  | HttpResponse (status_code : Z) (body : json_body).

Record environment : Type := {
  path_exists : string → bool;
  (** [open(path)] followed by [json.load] returns without raising *)
  json_loads : string → bool;
  import_module : string → import_result;
  http_get : string → http_result
}.

End World.

Import World.

(** ** Prerequisite checker: [check_prerequisites] *)

Module Prereq.

Definition SERVICE_ACCOUNT_FILE : string := "/home/ubuntu/service_account.json".

Definition required_packages : list string := ["gspread"; "google"; "requests"].

Definition connectivity_url : string := "https://www.google.com".

(** The [for package in required_packages] loop; [false] when an import
    raised. [ImportError] is caught in the loop, any other exception by the
    outer handler, and both make the checker return [False]. *)
Fixpoint check_packages (env : environment) (packages : list string)
  : traced bool :=
  match packages with
  | [] => mret true
  | package :: rest =>
      r ← call (ImportModule package) (import_module env package);
      match r with
      | Imported => check_packages env rest
      | RaisedImportError => mret false
      | RaisedOther => mret false
      end
  end.

Definition check_prerequisites (env : environment) : traced bool :=
  found ← call (PathExists SERVICE_ACCOUNT_FILE)
                (path_exists env SERVICE_ACCOUNT_FILE);
  if negb found then mret false else
  valid ← call (LoadJson SERVICE_ACCOUNT_FILE)
               (json_loads env SERVICE_ACCOUNT_FILE);
  if negb valid then mret false else
  available ← check_packages env required_packages;
  if negb available then mret false else
  response ← call (HttpGet connectivity_url 10) (http_get env connectivity_url);
  match response with
  | HttpRaised => mret false
  | HttpResponse status_code _ =>
      (* a status other than 200 is only logged as a warning *)
      mret true
  end.

End Prereq.

(** ** Geolocation resolver: [get_ip_geolocation] *)

Module Geo.

Definition geo_dict (country region city : pyval) : gmap string pyval :=
  <["country" := country]> (<["region" := region]> (<["city" := city]> ∅)).

Definition na_geo : gmap string pyval :=
  geo_dict (VStr "N/A") (VStr "N/A") (VStr "N/A").

Definition geo_url (ip_address : pyval) : string :=
  "https://ipapi.co/" +:+ py_str ip_address +:+ "/json/".

Definition get_ip_geolocation (env : environment) (ip_address : pyval)
  : traced (gmap string pyval) :=
  if negb (truthy ip_address) || bool_decide (ip_address = VStr "N/A") then
    mret na_geo
  else
    response ← call (HttpGet (geo_url ip_address) 10)
                    (http_get env (geo_url ip_address));
    match response with
    | HttpResponse status_code body =>
        if status_code =? 200 then
          match body with
          | JsonObject data =>
              mret (geo_dict (dict_get data "country_name" (VStr "N/A"))
                             (dict_get data "region" (VStr "N/A"))
                             (dict_get data "city" (VStr "N/A")))
          | JsonInvalid => mret na_geo
          | JsonNotObject => mret na_geo
          end
        else mret na_geo
    | HttpRaised => mret na_geo
    end.

End Geo.

(** ** Profitability checker: [check_profitability] *)

Module Profit.

Definition check_profitability (lead_data : gmap string pyval) : string :=
  let flags : list string := [] in
  let pax := lower (py_str (dict_get lead_data "pax" (VStr ""))) in
  let flags :=
    if String.eqb pax "1" || contains "solo" pax
    then flags ++ ["Solo traveler (1 PAX)"] else flags in
  let client_name :=
    lower (py_str (dict_get lead_data "client_name" (VStr ""))) in
  let flags :=
    if contains "shore" client_name || contains "excursion" client_name
    then flags ++ ["Shore excursion"] else flags in
  let flags :=
    if contains "day trip" client_name || contains "half day" client_name
    then flags ++ ["Short duration trip"] else flags in
  match flags with
  | [] => "No issues identified"
  | _ :: _ => join "; " flags
  end.

End Profit.

(** ** The spreadsheet *)

Module Sheet.

(** A row is a sequence of cells; a worksheet is its rows, top row first,
    down to the last row that is not blank.  The worksheet keeps the cells
    as they were written ([append_rows] and [insert_row] write with the
    input option RAW); what a reader gets back for a cell is given by
    [read_cell] below. *)
Abbreviation row := (list pyval).
Abbreviation sheet := (list (list pyval)).

(** [worksheet.clear()] *)
Definition clear (s : sheet) : sheet := [].

(** [worksheet.insert_row(values, 1)] *)
Definition insert_row_top (values : row) (s : sheet) : sheet := values :: s.

(** [worksheet.append_rows(rows)] *)
Definition append_rows (rows : list row) (s : sheet) : sheet := s ++ rows.

(** A value of a record returned by [get_all_records]: a string, an
    integer, or a float.  Python compares and hashes a float that equals
    an integer like that integer, so such a float is [RVal (VInt n)].
    [RFloat text] is [float(text)] where that float equals no integer,
    and so equals no string and no integer.  Such values are told apart
    by their texts, which is finer than the comparison of floats; the
    program tests only request tokens of leads against them, and these
    are no floats. *)
Inductive read_value : Type :=
  | RVal (v : pyval)
  | RFloat (literal : string).

#[global] Instance read_value_eq_dec : EqDecision read_value.
Proof. solve_decision. Defined.

Definition read_value_enc (v : read_value) : pyval + string :=
  match v with
  | RVal v => inl v
  | RFloat literal => inr literal
  end.

Definition read_value_dec (x : pyval + string) : read_value :=
  match x with
  | inl v => RVal v
  | inr literal => RFloat literal
  end.

#[global] Instance read_value_countable : Countable read_value.
Proof.
  apply (inj_countable' read_value_enc read_value_dec). by intros [].
Defined.

(** What reading a cell involves beyond the text of the cell: answers of
    the spreadsheet service and of Python's [float] and [int]. *)
Record cell_reader : Type := {
  (** the text the service shows for a cell that holds this integer *)
  shown_number : Z → string;
  (** [Some n] when [float(text)] equals the integer [n] *)
  float_integer : string → option Z;
  (** what [numericise] returns for a text with characters beyond ASCII *)
  beyond_ascii : string → read_value
}.

(** Space characters of [str.strip], within ASCII. *)
Definition is_space (c : ascii) : bool :=
  let n := Ascii.N_of_ascii c in
  (((9 <=? n) && (n <=? 13)) || ((28 <=? n) && (n <=? 32)))%N.

Definition is_digit (c : ascii) : bool :=
  let n := Ascii.N_of_ascii c in
  ((48 <=? n) && (n <=? 57))%N.

Definition digit_value (c : ascii) : Z :=
  Z.of_N (Ascii.N_of_ascii c) - 48.

Fixpoint is_ascii_text (s : string) : bool :=
  match s with
  | EmptyString => true
  | String c r => (Ascii.N_of_ascii c <? 128)%N && is_ascii_text r
  end.

Fixpoint skip_spaces (s : string) : string :=
  match s with
  | EmptyString => EmptyString
  | String c r => if is_space c then skip_spaces r else s
  end.

Fixpoint all_spaces (s : string) : bool :=
  match s with
  | EmptyString => true
  | String c r => is_space c && all_spaces r
  end.

(** An optional sign: whether it is a minus, and the rest. *)
Definition skip_sign (s : string) : bool * string :=
  match s with
  | String "-" r => (true, r)
  | String "+" r => (false, r)
  | _ => (false, s)
  end.

(** The leading digits: their value after [acc], how many there are
    after [count], and the rest. *)
Fixpoint take_digits (acc : Z) (count : nat) (s : string)
  : Z * nat * string :=
  match s with
  | EmptyString => (acc, count, EmptyString)
  | String c r =>
      if is_digit c then take_digits (10 * acc + digit_value c) (S count) r
      else (acc, count, s)
  end.

(** [int(text)] on ASCII text without underscores: spaces, an optional
    sign, one or more digits, spaces; [None] for the [ValueError]. *)
Definition int_of_text (text : string) : option Z :=
  let '(negative, body) := skip_sign (skip_spaces text) in
  let '(value, count, rest) := take_digits 0 0 body in
  if bool_decide (count ≠ 0%nat) && all_spaces rest
  then Some (if negative then - value else value)
  else None.

(** [word], in any letter case, followed by spaces only. *)
Definition is_word (word s : string) : bool :=
  String.prefix word (lower s) &&
  all_spaces (String.substring (String.length word) (String.length s) s).

(** Whether [float(text)] returns, on ASCII text without underscores:
    spaces, an optional sign, then "inf", "infinity" or "nan" in any
    letter case, or digits with an optional point and an optional
    exponent, at least one digit before the exponent; then spaces. *)
Definition is_float_text (text : string) : bool :=
  let '(_, body) := skip_sign (skip_spaces text) in
  if is_word "infinity" body || is_word "inf" body || is_word "nan" body
  then true
  else
    let '(_, whole, rest) := take_digits 0 0 body in
    let '(_, fraction, rest) :=
      match rest with
      | String "." r => take_digits 0 0 r
      | _ => (0, 0%nat, rest)
      end in
    if bool_decide ((whole + fraction)%nat = 0%nat) then false
    else
      match rest with
      | String c r =>
          if Ascii.eqb c "e" || Ascii.eqb c "E" then
            let '(_, digits, rest) := take_digits 0 0 (skip_sign r).2 in
            bool_decide (digits ≠ 0%nat) && all_spaces rest
          else all_spaces rest
      | EmptyString => true
      end.

(** gspread's [numericise] with the defaults of [get_all_records]: a text
    with an underscore is left as it is; otherwise [int] is tried, then
    [float]; any other text, the empty one included, is left as it is. *)
Definition numericise (r : cell_reader) (value : string) : read_value :=
  if contains "_" value then RVal (VStr value)
  else if negb (is_ascii_text value) then beyond_ascii r value
  else
    match int_of_text value with
    | Some n => RVal (VInt n)
    | None =>
        if is_float_text value then
          match float_integer r value with
          | Some n => RVal (VInt n)
          | None => RFloat value
          end
        else RVal (VStr value)
    end.

(** The text [get_all_values] returns for a cell: a string as written,
    nothing for [None], a number as the service shows it. *)
Definition cell_text (r : cell_reader) (written : pyval) : string :=
  match written with
  | VNone => ""
  | VStr s => s
  | VInt n => shown_number r n
  end.

(** What [get_all_records] returns for a cell below the first row. *)
Definition read_cell (r : cell_reader) (written : pyval) : read_value :=
  numericise r (cell_text r written).

(** [dict(zip(keys, values))]: a later pair overrides an earlier one. *)
Definition dict_zip {V : Type} (keys : list string) (values : list V)
  : gmap string V :=
  foldl (λ d kv, <[kv.1 := kv.2]> d) ∅ (zip keys values).

(** [rightpad(row, max_len)]: the row filled up with empty texts. *)
Definition rightpad (max_len : nat) (texts : list string) : list string :=
  texts ++ replicate (max_len - length texts) "".

(** [worksheet.get_all_values()]: the texts of the cells, every row
    filled up to the length of the longest one. *)
Definition get_all_values (r : cell_reader) (s : sheet)
  : list (list string) :=
  let texts := fmap (cell_text r) <$> s in
  rightpad (max_list (length <$> texts)) <$> texts.

(** [worksheet.get_all_records()] with no arguments: the texts of the
    first row are the keys, each further row becomes one record of its
    texts passed through [numericise]. *)
Definition get_all_records (r : cell_reader) (s : sheet)
  : list (gmap string read_value) :=
  match get_all_values r s with
  | [] => []
  | keys :: rows =>
      (λ values, dict_zip keys (numericise r <$> values)) <$> rows
  end.

(** [record.get(key, default)] *)
Definition record_get (record : gmap string read_value) (key : string)
    (default : read_value) : read_value :=
  match record !! key with
  | Some v => v
  | None => default
  end.

End Sheet.

Import Sheet.

(** ** Header initializer: [setup_exact_order_headers] *)

Module Setup.

Definition SPREADSHEET_ID : string :=
  "1F8qZA-b9oMtqw2Mf0ybb6FE2tUgmKEZ3zjAN9jfg4Ag".

Definition exact_order_headers : list string :=
  [
    "#"; "Hub"; "Client Name"; "Nationality"; "Email"; "Operator";
    "File Status"; "Arrival"; "Departure"; "Pax"; "Lead / Operation";
    "Request Channel"; "Communication"; "Medium"; "Offered Income";
    "Offered Income (USD)"; "Actual Paid Amount"; "Actual Paid Amount (USD)";
    "Remaining Payment"; "Remaining Payment (USD)"; "Submission Date";
    "Confirmation Date"; "Company"; "Department"; "Product Title";
    "UTM Campaign"; "Initial Price"; "Device Type"; "Client Phone";
    "File No"; "Request Token"; "Sales Person"; "Request Status"; "Source";
    "VIP Status"; "Loyalty Program"; "Group"; "Has Int. Flight";
    "Single Room"; "Double Room"; "Triple Room"; "Family Room";
    "Int.Flight Amount"; "Int.Flight Currency"; "Agent / Group Discount";
    "Agent Score"; "Agent Recommendation"; "IP Country"; "IP State/Region";
    "IP City"; "Profitability Flag"; "Communication Count"; "Last Updated";
    "Lead ID"; "Lead URL"
  ].

Definition header_row : row := VStr <$> exact_order_headers.

(** How a call to the spreadsheet API ends. *)
Inductive api_result : Type :=
  | ApiOk
  | ApiSpreadsheetNotFound
  | ApiError.

Record setup_backend : Type := {
  open_by_key_result : api_result;
  get_worksheet_result : api_result;
  clear_result : api_result;
  insert_row_result : api_result;
  format_result : api_result
}.

(** What the function prints last. *)
Inductive setup_outcome : Type :=
  | HeadersSet
  | NotFoundReported
  | ErrorReported.

(** The [except] clauses. *)
Definition handler (r : api_result) : setup_outcome :=
  match r with
  | ApiSpreadsheetNotFound => NotFoundReported
  | _ => ErrorReported
  end.

(** Whether a call returned without raising. *)
Definition returned (r : api_result) : bool :=
  match r with
  | ApiOk => true
  | _ => false
  end.

(** A call that raises leaves the worksheet as it was. *)
Definition setup_exact_order_headers (b : setup_backend) (s : sheet)
  : traced (setup_outcome * sheet) :=
  r ← call (OpenByKey SPREADSHEET_ID) (open_by_key_result b);
  if negb (returned r) then mret (handler r, s) else
  r ← call (GetWorksheet 0) (get_worksheet_result b);
  if negb (returned r) then mret (handler r, s) else
  r ← call SheetClear (clear_result b);
  if negb (returned r) then mret (handler r, s) else
  let s := clear s in
  r ← call (SheetInsertRow header_row 1) (insert_row_result b);
  if negb (returned r) then mret (handler r, s) else
  let s := insert_row_top header_row s in
  r ← call (SheetFormat "1:1") (format_result b);
  if negb (returned r) then mret (handler r, s) else
  mret (HeadersSet, s).

End Setup.

Import Setup.

(** ** Sync orchestrator: [sync_to_google_sheets] *)

Module Sync.

(** The 55 cells built for one lead. *)
Definition row_data (lead : gmap string pyval) : row :=
  let get := λ key, dict_get lead key (VStr "") in
  [
    get "row_number"; get "hub"; get "client_name"; get "nationality";
    get "email"; get "operator"; get "file_status"; get "arrival";
    get "departure"; get "pax"; get "lead_operation"; get "request_channel";
    get "communication"; get "medium"; get "offered_income";
    get "offered_income_usd"; get "actual_paid_amount";
    get "actual_paid_amount_usd"; get "remaining_payment";
    get "remaining_payment_usd"; get "submission_date";
    get "confirmation_date"; get "company"; get "department";
    get "product_title"; get "utm_campaign"; get "initial_price";
    get "device_type"; get "client_phone"; get "file_no";
    get "request_token"; get "sales_person"; get "request_status";
    get "source"; get "vip_status"; get "loyalty_program"; get "group";
    get "has_int_flight"; get "single_room"; get "double_room";
    get "triple_room"; get "family_room"; get "int_flight_amount";
    get "int_flight_currency"; get "agent_group_discount"; get "agent_score";
    get "agent_recommendation"; get "ip_country"; get "ip_region";
    get "ip_city"; get "profitability_flag"; get "communications_count";
    get "last_updated"; get "lead_id"; get "lead_url"
  ].

Definition request_token (lead : gmap string pyval) : pyval :=
  dict_get lead "request_token" (VStr "").

(** [{row.get('Request Token', '') for row in existing_data}] *)
Definition tokens_of_records (existing_data : list (gmap string read_value))
  : gset read_value :=
  list_to_set
    ((λ r, record_get r "Request Token" (RVal (VStr ""))) <$> existing_data).

(** One turn of the [for lead in leads_data] loop on the pair
    [(new_rows, updated_count)]. *)
Definition loop_body (existing_tokens : gset read_value)
    (acc : list row * Z) (lead : gmap string pyval) : list row * Z :=
  let '(new_rows, updated_count) := acc in
  if bool_decide (RVal (request_token lead) ∉ existing_tokens)
  then (new_rows ++ [row_data lead], updated_count + 1)
  else (new_rows, updated_count).

Record sync_backend : Type := {
  (** [get_all_records] returns without raising; it raises when the
      service fails and, in later versions of the library, when two
      cells of the first row hold the same text *)
  read_succeeds : bool;
  (** [append_rows] returns without raising *)
  append_succeeds : bool;
  (** how [get_all_records] reads cells back *)
  reading : cell_reader
}.

(** [self_sheet] is the field [self.sheet]: [None] before the connection
    is set up, otherwise the worksheet.  The result is the returned count
    and the worksheet afterwards. *)
Definition sync_to_google_sheets (b : sync_backend) (self_sheet : option sheet)
    (leads_data : list (gmap string pyval)) : Z * option sheet :=
  match self_sheet with
  | None => (0, None)
  | Some s =>
      let existing_tokens : gset read_value :=
        if read_succeeds b
        then tokens_of_records (get_all_records (reading b) s)
        else ∅ in
      let '(new_rows, updated_count) :=
        foldl (loop_body existing_tokens) ([], 0) leads_data in
      match new_rows with
      | _ :: _ =>
          if append_succeeds b
          then (updated_count, Some (append_rows new_rows s))
          else (0, Some s)
      | [] => (updated_count, Some s)
      end
  end.

End Sync.

Import Prereq Geo Profit Sync.

(** ** Vocabulary of the properties *)

Module Props.

(** The [Request Token] value of every record read from the worksheet,
    top down. *)
Definition sheet_tokens (r : cell_reader) (s : sheet) : list read_value :=
  (λ record, record_get record "Request Token" (RVal (VStr "")))
    <$> get_all_records r s.

(** The text in the [Request Token] column of every row below the first,
    top down; the column is found as [get_all_records] finds it, by the
    texts of the first row. *)
Definition token_texts (r : cell_reader) (s : sheet) : list string :=
  match get_all_values r s with
  | [] => []
  | keys :: rows =>
      (λ values, default "" (dict_zip keys values !! "Request Token"))
        <$> rows
  end.

(** No request token occurs in two rows of the worksheet. *)
Definition token_unique (r : cell_reader) (s : sheet) : Prop :=
  NoDup (token_texts r s).

(** The value is not the empty string and a cell that holds it reads back
    as the same value: a text that [numericise] leaves alone, or an
    integer that the service shows in a way [int] reads back. *)
Definition read_as_written (r : cell_reader) (v : pyval) : Prop :=
  v ≠ VStr "" ∧ read_cell r v = RVal v.

#[global] Instance read_as_written_dec (r : cell_reader) (v : pyval) :
  Decision (read_as_written r v).
Proof. unfold read_as_written. apply _. Defined.

(** The top row of the worksheet is the header row written by
    [setup_exact_order_headers]. *)
Definition initialised (s : sheet) : Prop := head s = Some header_row.

Definition is_alnum (c : ascii) : bool :=
  let n := Ascii.N_of_ascii c in
  (((48 <=? n) && (n <=? 57)) || ((97 <=? n) && (n <=? 122)))%N.

(** Lower-case words joined by single underscores: [pending] records that
    a separator was crossed since the last word, [started] that a word was
    already written. *)
Fixpoint snake_from (pending started : bool) (s : string) : string :=
  match s with
  | EmptyString => EmptyString
  | String c r =>
      let c := lower_ascii c in
      if is_alnum c then
        if pending && started
        then String "_" (String c (snake_from false true r))
        else String c (snake_from false true r)
      else snake_from true started r
  end.

Definition snake_case (s : string) : string := snake_from false false s.

(** The lead field shown under a column header: the header in snake case,
    but for the three columns whose field has a name of its own. *)
Definition field_of_header (header : string) : string :=
  if String.eqb header "#" then "row_number"
  else if String.eqb header "IP State/Region" then "ip_region"
  else if String.eqb header "Communication Count" then "communications_count"
  else snake_case header.

(** The leads whose request token is not among [existing], in order. *)
Definition fresh_leads (existing : gset read_value)
    (leads : list (gmap string pyval)) : list (gmap string pyval) :=
  filter (λ lead, RVal (request_token lead) ∉ existing) leads.

(** The two ways a geolocation lookup fails: the request raises, or the
    response carries a status other than 200. *)
Definition lookup_failed (r : http_result) : Prop :=
  match r with
  | HttpRaised => True
  | HttpResponse status_code _ => status_code ≠ 200
  end.

End Props.

Import Props.

(** ** Sample data *)

Module Samples.

Definition lead_with_token (token : string) : gmap string pyval :=
  <["request_token" := VStr token]>
    (<["client_name" := VStr "Test Client"]> (<["pax" := VStr "2"]> ∅)).

Definition sheet_with_A : list (list pyval) :=
  [header_row; row_data (lead_with_token "A")].

(** The header row and the row of a lead whose token is the text "123". *)
Definition sheet_with_123 : list (list pyval) :=
  [header_row; row_data (lead_with_token "123")].

Definition leads_A_B_B : list (gmap string pyval) :=
  [lead_with_token "A"; lead_with_token "B"; lead_with_token "B"].

(** The integer that a text with an all-zero fraction stands for, as in
    "1000.00"; enough of [float] for the sample data. *)
Definition zero_fraction_integer (text : string) : option Z :=
  let '(negative, body) := skip_sign (skip_spaces text) in
  let '(value, whole, rest) := take_digits 0 0 body in
  match rest with
  | String "." r =>
      let '(fraction, _, rest) := take_digits 0 0 r in
      if bool_decide (whole ≠ 0%nat) && (fraction =? 0) && all_spaces rest
      then Some (if negative then - value else value)
      else None
  | _ => None
  end.

(** A reader over a service that shows integers in plain decimal
    notation. *)
Definition plain_reader : cell_reader :=
  {| shown_number := pretty;
     float_integer := zero_fraction_integer;
     beyond_ascii := λ text, RVal (VStr text) |}.

Definition backend_ok : sync_backend :=
  {| read_succeeds := true; append_succeeds := true;
     reading := plain_reader |}.

Definition backend_read_fails : sync_backend :=
  {| read_succeeds := false; append_succeeds := true;
     reading := plain_reader |}.

Definition env_ok : environment :=
  {| path_exists := λ _, true;
     json_loads := λ _, true;
     import_module := λ _, Imported;
     http_get := λ _, HttpResponse 200 JsonInvalid |}.

Definition env_no_file : environment :=
  {| path_exists := λ _, false;
     json_loads := json_loads env_ok;
     import_module := import_module env_ok;
     http_get := http_get env_ok |}.

Definition env_bad_json : environment :=
  {| path_exists := path_exists env_ok;
     json_loads := λ _, false;
     import_module := import_module env_ok;
     http_get := http_get env_ok |}.

Definition env_no_requests : environment :=
  {| path_exists := path_exists env_ok;
     json_loads := json_loads env_ok;
     import_module := λ name,
       if String.eqb name "requests" then RaisedImportError else Imported;
     http_get := http_get env_ok |}.

Definition env_offline : environment :=
  {| path_exists := path_exists env_ok;
     json_loads := json_loads env_ok;
     import_module := import_module env_ok;
     http_get := λ _, HttpRaised |}.

Definition env_status (status_code : Z) : environment :=
  {| path_exists := path_exists env_ok;
     json_loads := json_loads env_ok;
     import_module := import_module env_ok;
     http_get := λ _, HttpResponse status_code JsonInvalid |}.

Definition all_calls_return : setup_backend :=
  {| open_by_key_result := ApiOk;
     get_worksheet_result := ApiOk;
     clear_result := ApiOk;
     insert_row_result := ApiOk;
     format_result := ApiOk |}.

Definition solo_city_tour : gmap string pyval :=
  <["pax" := VStr "1"]> (<["client_name" := VStr "City Tour"]> ∅).

Definition solo_shore_day_trip : gmap string pyval :=
  <["pax" := VStr "1"]>
    (<["client_name" := VStr "Shore Excursion Day Trip"]> ∅).

Definition four_nile_cruise : gmap string pyval :=
  <["pax" := VStr "4"]> (<["client_name" := VStr "Grand Nile Cruise"]> ∅).

End Samples.

Import Samples.

(** ** Run controller: [setup_google_sheets], [add_sample_data_safe],
    [run_sync], [main] *)

Module Run.

(** What the clock answers during one run: the four [time.time()]
    readings, truncated by [int], and the three formatted
    [datetime.now()] readings. *)
Record clock : Type := {
  time_row_number : Z;
  time_file_no : Z;
  time_request_token : Z;
  time_lead_id : Z;
  now_hhmm : string;
  now_submission : string;
  now_updated : string
}.

(** The dictionary literal of [sample_leads], with its computed values
    as arguments. *)
Definition sample_lead_with
    (row_number client_name submission_date file_no request_token
       lead_id : string) : gmap string pyval :=
  list_to_map [
    ("row_number", VStr row_number);
    ("hub", VStr "memphistours.com");
    ("client_name", VStr client_name);
    ("nationality", VStr "Test Country");
    ("email", VStr "test@example.com");
    ("operator", VStr "Memphis Tours");
    ("file_status", VStr "Active");
    ("arrival", VStr "2025-10-15");
    ("departure", VStr "2025-10-22");
    ("pax", VStr "2");
    ("lead_operation", VStr "Lead");
    ("request_channel", VStr "Website");
    ("communication", VStr "Email");
    ("medium", VStr "Online");
    ("offered_income", VStr "1000.00");
    ("offered_income_usd", VStr "1000.00");
    ("actual_paid_amount", VStr "0.00");
    ("actual_paid_amount_usd", VStr "0.00");
    ("remaining_payment", VStr "1000.00");
    ("remaining_payment_usd", VStr "1000.00");
    ("submission_date", VStr submission_date);
    ("confirmation_date", VStr "N/A");
    ("company", VStr "Memphis Tours");
    ("department", VStr "Corporate Sales");
    ("product_title", VStr "Test Tour Package");
    ("utm_campaign", VStr "test_campaign");
    ("initial_price", VStr "1000.00");
    ("device_type", VStr "Desktop");
    ("client_phone", VStr "+1-555-0123");
    ("file_no", VStr file_no);
    ("request_token", VStr request_token);
    ("sales_person", VStr "Test Agent");
    ("request_status", VStr "New Request");
    ("source", VStr "Test Site");
    ("vip_status", VStr "No");
    ("loyalty_program", VStr "Fresh Customer");
    ("group", VStr "No");
    ("has_int_flight", VStr "No");
    ("single_room", VStr "0");
    ("double_room", VStr "1");
    ("triple_room", VStr "0");
    ("family_room", VStr "0");
    ("int_flight_amount", VStr "0");
    ("int_flight_currency", VStr "USD");
    ("agent_group_discount", VStr "0");
    ("communications_count", VInt 1);
    ("lead_id", VStr lead_id);
    ("lead_url", VStr "https://example.com/test")
  ].

Definition sample_lead (c : clock) : gmap string pyval :=
  sample_lead_with
    (pretty (time_row_number c `mod` 1000))
    ("Test Client " +:+ now_hhmm c)
    (now_submission c)
    ("MT" +:+ pretty (time_file_no c))
    ("TEST" +:+ pretty (time_request_token c))
    ("TEST" +:+ pretty (time_lead_id c)).

Definition sample_leads (c : clock) : list (gmap string pyval) :=
  [sample_lead c].

(** [d[key]]: [None] stands for the [KeyError]. *)
Definition dict_index (d : gmap string pyval) (key : string) : option pyval :=
  d !! key.

(** One turn of the [for lead in sample_leads] loop; [None] when the
    turn raises. The log line reads [lead['client_name']]. *)
Definition enrich_lead (env : environment) (last_updated : string)
    (lead : gmap string pyval) : traced (option (gmap string pyval)) :=
  match dict_index lead "client_name" with
  | None => mret None
  | Some _ =>
      let '(agent_score, agent_recommendation) :=
        score_sales_agent (dict_get lead "communications_count" (VInt 0))
                          (dict_get lead "request_status" (VStr "")) in
      geo_data ← get_ip_geolocation env (VStr "8.8.8.8");
      let profitability_flag := check_profitability lead in
      match dict_index geo_data "country", dict_index geo_data "region",
            dict_index geo_data "city" with
      | Some country, Some region, Some city =>
          mret (Some
            (<["last_updated" := VStr last_updated]>
            (<["profitability_flag" := VStr profitability_flag]>
            (<["ip_city" := city]>
            (<["ip_region" := region]>
            (<["ip_country" := country]>
            (<["agent_recommendation" := VStr agent_recommendation]>
            (<["agent_score" := VInt agent_score]> lead))))))))
      | _, _, _ => mret None
      end
  end.

(** The loop over the leads: the enriched leads in order, or [None] as
    soon as a turn raises. *)
Fixpoint enrich_leads (env : environment) (last_updated : string)
    (leads : list (gmap string pyval))
  : traced (option (list (gmap string pyval))) :=
  match leads with
  | [] => mret (Some [])
  | lead :: rest =>
      r ← enrich_lead env last_updated lead;
      match r with
      | None => mret None
      | Some enriched =>
          rs ← enrich_leads env last_updated rest;
          mret (cons enriched <$> rs)
      end
  end.

(** The result and the field [self.sheet] afterwards. [sample_leads]
    holds one lead, so the loop reads the clock once, for [last_updated];
    an exception anywhere makes the function return [False]. *)
Definition add_sample_data_safe (env : environment) (c : clock)
    (b : sync_backend) (self_sheet : option (list (list pyval)))
  : traced (bool * option (list (list pyval))) :=
  r ← enrich_leads env (now_updated c) (sample_leads c);
  match r with
  | None => mret (false, self_sheet)
  | Some enriched_leads =>
      let '(synced_count, self_sheet) :=
        sync_to_google_sheets b self_sheet enriched_leads in
      mret (0 <? synced_count, self_sheet)
  end.

(** [spreadsheet.get_worksheet(0)] *)
Inductive worksheet_result : Type :=
  | WorksheetRaised
  | WorksheetNone
  | WorksheetFound.

(** How the calls of [setup_google_sheets] end: [true] for a call that
    returns, [false] for one that raises. *)
Record connect_backend : Type := {
  credentials_load : bool;
  authorize_returns : bool;
  open_spreadsheet_returns : bool;
  get_first_worksheet : worksheet_result;
  first_cell_readable : bool
}.

(** [remote] is the first worksheet of the spreadsheet. The result and
    the field [self.sheet] afterwards. *)
Definition setup_google_sheets (k : connect_backend)
    (remote : list (list pyval)) (self_sheet : option (list (list pyval)))
  : bool * option (list (list pyval)) :=
  if negb (credentials_load k) then (false, self_sheet) else
  if negb (authorize_returns k) then (false, self_sheet) else
  if negb (open_spreadsheet_returns k) then (false, self_sheet) else
  match get_first_worksheet k with
  | WorksheetRaised => (false, self_sheet)
  | WorksheetNone => (false, None)
  | WorksheetFound =>
      let self_sheet := Some remote in
      if negb (first_cell_readable k) then (false, self_sheet)
      else (true, self_sheet)
  end.

(** The worksheet as it stands when [self.sheet] is [self_sheet]. *)
Definition remote_after (remote : list (list pyval))
    (self_sheet : option (list (list pyval))) : list (list pyval) :=
  match self_sheet with
  | Some s => s
  | None => remote
  end.

(** The result and the worksheet afterwards; [self.sheet] starts as
    [None]. *)
Definition run_sync (env : environment) (c : clock) (k : connect_backend)
    (b : sync_backend) (remote : list (list pyval))
  : traced (bool * list (list pyval)) :=
  ok ← check_prerequisites env;
  if negb ok then mret (false, remote) else
  let '(ok, self_sheet) := setup_google_sheets k remote None in
  if negb ok then mret (false, remote_after remote self_sheet) else
  '(ok, self_sheet) ← add_sample_data_safe env c b self_sheet;
  if negb ok then mret (false, remote_after remote self_sheet)
  else mret (true, remote_after remote self_sheet).

(** What is printed for the monitor, the exit status, and the worksheet
    afterwards. *)
Definition main (env : environment) (c : clock) (k : connect_backend)
    (b : sync_backend) (remote : list (list pyval))
  : traced (string * Z * list (list pyval)) :=
  run_sync env c k b remote ≫= λ r : bool * list (list pyval),
  let '(success, remote) := r in
  if success then mret ("SUCCESS", 0, remote)
  else mret ("FAILED", 1, remote).

End Run.

Import Run.

(** ** Sample data for the run controller *)

Module RunSamples.

Definition geo_answer : gmap string pyval :=
  <["country_name" := VStr "United States"]> (<["region" := VNone]> ∅).

(** Everything in place; the geolocation service answers [geo_answer]. *)
Definition env_live : environment :=
  {| path_exists := λ _, true;
     json_loads := λ _, true;
     import_module := λ _, Imported;
     http_get := λ url,
       if String.eqb url "https://www.google.com"
       then HttpResponse 200 JsonInvalid
       else HttpResponse 200 (JsonObject geo_answer) |}.

Definition clock_1 : clock :=
  {| time_row_number := 1730000123;
     time_file_no := 1730000123;
     time_request_token := 1730000123;
     time_lead_id := 1730000124;
     now_hhmm := "14:05";
     now_submission := "2026-11-03 14:05:01";
     now_updated := "2026-11-03 14:05:02" |}.

Definition connect_ok : connect_backend :=
  {| credentials_load := true;
     authorize_returns := true;
     open_spreadsheet_returns := true;
     get_first_worksheet := WorksheetFound;
     first_cell_readable := true |}.

Definition connect_no_cell : connect_backend :=
  {| credentials_load := true;
     authorize_returns := true;
     open_spreadsheet_returns := true;
     get_first_worksheet := WorksheetFound;
     first_cell_readable := false |}.

Definition backend_append_fails : sync_backend :=
  {| read_succeeds := true; append_succeeds := false;
     reading := plain_reader |}.

Definition clear_then_insert_raises : setup_backend :=
  {| open_by_key_result := ApiOk;
     get_worksheet_result := ApiOk;
     clear_result := ApiOk;
     insert_row_result := ApiError;
     format_result := ApiOk |}.

Definition spreadsheet_missing : setup_backend :=
  {| open_by_key_result := ApiSpreadsheetNotFound;
     get_worksheet_result := ApiOk;
     clear_result := ApiOk;
     insert_row_result := ApiOk;
     format_result := ApiOk |}.

Definition format_raises : setup_backend :=
  {| open_by_key_result := ApiOk;
     get_worksheet_result := ApiOk;
     clear_result := ApiOk;
     insert_row_result := ApiOk;
     format_result := ApiError |}.

(** The lead [lead_with_token "A"] after enrichment while the geolocation
    service is out of reach. *)
Definition enriched_A : gmap string pyval :=
  <["last_updated" := VStr "2026-11-03 14:05:02"]>
  (<["profitability_flag" := VStr "No issues identified"]>
  (<["ip_city" := VStr "N/A"]>
  (<["ip_region" := VStr "N/A"]>
  (<["ip_country" := VStr "N/A"]>
  (<["agent_recommendation" := VStr "No response from agent yet"]>
  (<["agent_score" := VInt 3]> (lead_with_token "A"))))))).

End RunSamples.

Import RunSamples.

Module RunProps.

(** The keys written by [lead.update] in the enrichment loop. *)
Definition enrichment_keys : list string :=
  ["agent_score"; "agent_recommendation"; "ip_country"; "ip_region";
   "ip_city"; "profitability_flag"; "last_updated"].

(** The request token of the sample lead built at clock [c]. *)
Definition sample_token (c : clock) : pyval :=
  VStr ("TEST" +:+ pretty (time_request_token c)).

(** Every call of [setup_google_sheets] returns and finds a worksheet. *)
Definition connects (k : connect_backend) : bool :=
  credentials_load k && authorize_returns k && open_spreadsheet_returns k &&
  match get_first_worksheet k with WorksheetFound => true | _ => false end &&
  first_cell_readable k.

End RunProps.

Import RunProps.

(** * Properties *)

(** ** Strings *)

Section strings.

Lemma append_empty (t : string) : "" +:+ t = t.
Proof. reflexivity. Qed.

Lemma append_String (a : ascii) (s t : string) :
  String a s +:+ t = String a (s +:+ t).
Proof. reflexivity. Qed.

Lemma prefix_spec (p s : string) :
  String.prefix p s = true ↔ ∃ post, s = p +:+ post.
Proof.
  revert s. induction p as [|a p IH]; intros [|b s]; simpl.
  - split; [by exists "" | done].
  - split; [by exists (String b s) | done].
  - split; [done | by intros [? ?]].
  - destruct (Ascii.ascii_dec a b) as [->|Hne].
    + rewrite IH. split; intros [post H]; exists post.
      * by rewrite append_String, H.
      * rewrite append_String in H. congruence.
    + split; [done | intros [post H]].
      rewrite append_String in H. congruence.
Qed.

Lemma contains_empty (needle : string) :
  contains needle "" = String.prefix needle "" || false.
Proof. reflexivity. Qed.

Lemma contains_String (needle : string) (c : ascii) (hay : string) :
  contains needle (String c hay)
    = String.prefix needle (String c hay) || contains needle hay.
Proof. reflexivity. Qed.

Lemma contains_spec (needle hay : string) :
  contains needle hay = true ↔ Substring needle hay.
Proof.
  unfold Substring. induction hay as [|c hay IH].
  - rewrite contains_empty, orb_false_r, prefix_spec. split.
    + intros [post H]. by exists "", post.
    + intros [[|? ?] [post H]]; [eauto | done].
  - rewrite contains_String, orb_true_iff, prefix_spec, IH. split.
    + intros [[post H] | (pre & post & H)].
      * by exists "", post.
      * exists (String c pre), post. by rewrite append_String, H.
    + intros ([|c' pre] & post & H).
      * left. by exists post.
      * right. exists pre, post. rewrite append_String in H. congruence.
Qed.

Lemma contains_false (needle hay : string) :
  contains needle hay = false ↔ ¬ Substring needle hay.
Proof.
  rewrite <- contains_spec. by destruct (contains needle hay).
Qed.

Lemma status_of_str (s : string) : status_of (VStr s) = lower s.
Proof. unfold status_of. simpl. by destruct s. Qed.

End strings.

(** ** Agent scorer *)

Section scorer.

Lemma base_score_int (c : Z) :
  base_score (VInt c) =
    if c =? 0 then (3, "No response from agent yet")
    else if c =? 1 then (6, "Initial contact made, needs follow-up")
    else (8, "Active communication maintained").
Proof. reflexivity. Qed.

Lemma unadjusted_score (c : Z) (lead_status : pyval) :
  contains "confirmed" (status_of lead_status) = false →
  contains "new" (status_of lead_status) = false →
  score_sales_agent (VInt c) lead_status = base_score (VInt c).
Proof.
  intros Hc Hn. unfold score_sales_agent.
  destruct (base_score (VInt c)) as [score recommendation].
  by rewrite Hc, Hn.
Qed.

(** A negative count falls into the [else] branch. *)
Lemma base_score_negative (c : Z) :
  c < 0 → base_score (VInt c) = (8, "Active communication maintained").
Proof.
  intros Hc. rewrite base_score_int.
  destruct (Z.eqb_spec c 0); [lia|]. destruct (Z.eqb_spec c 1); [lia|]. done.
Qed.

(** C3, as stated, fails: the count [-1] is not positive, and its base
    score is 8, not 3. *)
Lemma base_score_minus_one :
  -1 ≤ 0 ∧ (base_score (VInt (-1))).1 = 8 ∧ (base_score (VInt (-1))).1 ≠ 3.
Proof. by repeat split. Qed.

(** C3, amended: for every integer [communications_count] the base score,
    the score before the status adjustment, is 3 when the count is 0, 6
    when it is 1 and 8 when it is greater than 1; a status that mentions
    neither "confirmed" nor "new" leaves it as the returned score. *)
Theorem base_score_buckets (c : Z) :
  (c = 0 → (base_score (VInt c)).1 = 3) ∧
  (c = 1 → (base_score (VInt c)).1 = 6) ∧
  (1 < c → (base_score (VInt c)).1 = 8) ∧
  (∀ lead_status : string,
     ¬ SubstringCI "confirmed" lead_status →
     ¬ SubstringCI "new" lead_status →
     (score_sales_agent (VInt c) (VStr lead_status)).1
       = (base_score (VInt c)).1).
Proof.
  rewrite base_score_int. repeat split.
  - by intros ->.
  - by intros ->.
  - intros Hc. destruct (Z.eqb_spec c 0); [lia|].
    destruct (Z.eqb_spec c 1); [lia|]. done.
  - intros s Hc Hn. rewrite unadjusted_score, base_score_int; [done| |].
    + apply contains_false. by rewrite status_of_str.
    + apply contains_false. by rewrite status_of_str.
Qed.

Lemma base_score_buckets_witness :
  (base_score (VInt 0)).1 = 3 ∧ (base_score (VInt 1)).1 = 6 ∧
  (base_score (VInt 2)).1 = 8 ∧
  (score_sales_agent (VInt 2) (VStr "In Progress")).1
    = (base_score (VInt 2)).1.
Proof.
  split; [|split; [|split]].
  - apply (proj1 (base_score_buckets 0)). reflexivity.
  - apply (proj1 (proj2 (base_score_buckets 1))). reflexivity.
  - apply (proj1 (proj2 (proj2 (base_score_buckets 2)))). lia.
  - apply (proj2 (proj2 (proj2 (base_score_buckets 2))) "In Progress").
    + apply contains_false. reflexivity.
    + apply contains_false. reflexivity.
Defined.

(** C4: for every integer count and status string, a status that contains
    "confirmed" in any letter case gives the score [min(10, base + 2)] and
    the recommendation "Lead successfully converted"; otherwise a status
    that contains "new" in any letter case, with a positive count, gives
    [max(1, base - 1)] and "Response needed for new lead". *)
Theorem score_status_adjustment (c : Z) (lead_status : string) :
  (SubstringCI "confirmed" lead_status →
   score_sales_agent (VInt c) (VStr lead_status)
     = (Z.min 10 ((base_score (VInt c)).1 + 2),
        "Lead successfully converted")) ∧
  (¬ SubstringCI "confirmed" lead_status →
   SubstringCI "new" lead_status → 0 < c →
   score_sales_agent (VInt c) (VStr lead_status)
     = (Z.max 1 ((base_score (VInt c)).1 - 1),
        "Response needed for new lead")).
Proof.
  unfold SubstringCI, score_sales_agent. rewrite status_of_str.
  change (lower "confirmed") with "confirmed".
  change (lower "new") with "new".
  destruct (base_score (VInt c)) as [score recommendation]. split.
  - intros Hc. apply contains_spec in Hc. by rewrite Hc.
  - intros Hc Hn Hpos. apply contains_false in Hc. apply contains_spec in Hn.
    rewrite Hc, Hn. simpl. by destruct (Z.ltb_spec 0 c); [|lia].
Qed.

Lemma score_status_adjustment_witness :
  score_sales_agent (VInt 1) (VStr "Booking CONFIRMED")
    = (8, "Lead successfully converted") ∧
  score_sales_agent (VInt 2) (VStr "new lead, Confirmed")
    = (10, "Lead successfully converted") ∧
  score_sales_agent (VInt 1) (VStr "New Request")
    = (5, "Response needed for new lead").
Proof.
  split; [|split].
  - apply (proj1 (score_status_adjustment 1 "Booking CONFIRMED")).
    apply contains_spec. reflexivity.
  - apply (proj1 (score_status_adjustment 2 "new lead, Confirmed")).
    apply contains_spec. reflexivity.
  - apply (proj2 (score_status_adjustment 1 "New Request")).
    + apply contains_false. reflexivity.
    + apply contains_spec. reflexivity.
    + lia.
Defined.

(** C10: for every integer count and every status, [None] included, the
    scorer does not return the initial pair (5, "Standard performance");
    the score is one of 3, 5, 6, 7, 8, 10 and the recommendation is one
    of the five documented strings. *)
Theorem score_never_default (c : Z) (lead_status : pyval) :
  score_sales_agent (VInt c) lead_status ≠ (5, "Standard performance") ∧
  (score_sales_agent (VInt c) lead_status).1 ∈ [3; 5; 6; 7; 8; 10] ∧
  (score_sales_agent (VInt c) lead_status).2 ∈
    ["No response from agent yet";
     "Initial contact made, needs follow-up";
     "Active communication maintained";
     "Lead successfully converted";
     "Response needed for new lead"].
Proof.
  unfold score_sales_agent. rewrite base_score_int. simpl py_gt_int.
  generalize (status_of lead_status) as status. intros status.
  destruct (contains "confirmed" status), (contains "new" status),
    (Z.eqb_spec c 0), (Z.eqb_spec c 1), (Z.ltb_spec 0 c);
    try lia; simpl; (split; [discriminate | split; set_solver]).
Qed.

End scorer.

(** ** Prerequisite checker *)

Section prerequisites.

Variable env : environment.

Lemma check_packages_no_http (packages : list string) (u : string) (t : Z) :
  HttpGet u t ∉ (check_packages env packages).2.
Proof.
  induction packages as [|p rest IH]; simpl.
  - apply not_elem_of_nil.
  - destruct (import_module env p); simpl.
    + destruct (check_packages env rest) as [ok trace]. simpl in *.
      rewrite elem_of_cons. by intros [?|?].
    + rewrite elem_of_cons, elem_of_nil. by intros [?|?].
    + rewrite elem_of_cons, elem_of_nil. by intros [?|?].
Qed.

Lemma check_packages_failure (packages : list string) (p : string) :
  p ∈ packages → import_module env p ≠ Imported →
  (check_packages env packages).1 = false.
Proof.
  induction packages as [|q rest IH]; intros Hin Hfail.
  - by apply elem_of_nil in Hin.
  - simpl. destruct (import_module env q) eqn:Hq; simpl; [|done|done].
    apply elem_of_cons in Hin as [->|Hin]; [done|].
    specialize (IH Hin Hfail).
    by destruct (check_packages env rest) as [ok trace].
Qed.

Lemma check_packages_success (packages : list string) :
  (∀ p, p ∈ packages → import_module env p = Imported) →
  check_packages env packages = (true, ImportModule <$> packages).
Proof.
  induction packages as [|q rest IH]; intros Hall; [done|].
  simpl. rewrite (Hall q) by apply list_elem_of_here. simpl.
  rewrite IH; [done|]. intros p Hp. apply Hall. by apply list_elem_of_further.
Qed.

(** C5: the checker returns a boolean, and a single failed check makes it
    return false at once: a missing credentials file (nothing else is
    tried), a credentials file that does not parse (no import and no
    request is tried), a required package that cannot be imported (no
    request is sent), or a connectivity request to the known host that
    fails or times out. *)
Theorem check_prerequisites_fail_fast :
  (path_exists env SERVICE_ACCOUNT_FILE = false →
   check_prerequisites env = (false, [PathExists SERVICE_ACCOUNT_FILE])) ∧
  (path_exists env SERVICE_ACCOUNT_FILE = true →
   json_loads env SERVICE_ACCOUNT_FILE = false →
   check_prerequisites env
     = (false, [PathExists SERVICE_ACCOUNT_FILE;
                LoadJson SERVICE_ACCOUNT_FILE])) ∧
  (∀ package, package ∈ required_packages →
   import_module env package ≠ Imported →
   (check_prerequisites env).1 = false ∧
   ∀ url timeout, HttpGet url timeout ∉ (check_prerequisites env).2) ∧
  (http_get env connectivity_url = HttpRaised →
   (check_prerequisites env).1 = false).
Proof.
  split; [|split; [|split]].
  - unfold check_prerequisites. intros ->. reflexivity.
  - unfold check_prerequisites. intros -> ->. reflexivity.
  - intros package Hin Hfail.
    pose proof (check_packages_failure _ _ Hin Hfail) as Hfalse. split.
    { unfold check_prerequisites.
      destruct (path_exists env _); [|done].
      destruct (json_loads env _); [|done].
      destruct (check_packages env required_packages) as [ok trace].
      simpl in Hfalse. by subst ok. }
    intros url timeout.
    pose proof (check_packages_no_http required_packages url timeout) as Hno.
    unfold check_prerequisites.
    destruct (path_exists env _);
      [|cbn; rewrite elem_of_cons, elem_of_nil; by intros [?|?]].
    destruct (json_loads env _);
      [|cbn; rewrite !elem_of_cons, elem_of_nil; by intros [?|[?|?]]].
    destruct (check_packages env required_packages) as [ok trace].
    simpl in Hfalse, Hno. subst ok. cbn.
    rewrite !elem_of_cons, elem_of_app, elem_of_nil. by intros [?|[?|[?|?]]].
  - intros Hnet. unfold check_prerequisites.
    destruct (path_exists env _); [|done].
    destruct (json_loads env _); [|done].
    destruct (check_packages env required_packages) as [[] trace]; [|done].
    cbn. by rewrite Hnet.
Qed.

(** With the file in place, the packages importable and any response at
    all, the checker passes whatever the status code is. *)
Lemma check_prerequisites_any_status (status_code : Z) (body : json_body) :
  path_exists env SERVICE_ACCOUNT_FILE = true →
  json_loads env SERVICE_ACCOUNT_FILE = true →
  (∀ p, p ∈ required_packages → import_module env p = Imported) →
  http_get env connectivity_url = HttpResponse status_code body →
  (check_prerequisites env).1 = true.
Proof.
  intros Hf Hj Hp Hnet. unfold check_prerequisites.
  rewrite Hf, Hj, (check_packages_success _ Hp). cbn. by rewrite Hnet.
Qed.

End prerequisites.

Lemma check_prerequisites_fail_fast_witness :
  (check_prerequisites env_no_file).1 = false ∧
  (check_prerequisites env_bad_json).1 = false ∧
  (check_prerequisites env_no_requests).1 = false ∧
  (check_prerequisites env_offline).1 = false.
Proof.
  split; [|split; [|split]].
  - by rewrite (proj1 (check_prerequisites_fail_fast env_no_file) eq_refl).
  - by rewrite (proj1 (proj2 (check_prerequisites_fail_fast env_bad_json))
                  eq_refl eq_refl).
  - apply (proj1 (proj2 (proj2
             (check_prerequisites_fail_fast env_no_requests))) "requests").
    + set_solver.
    + discriminate.
  - by apply (proj2 (proj2 (proj2 (check_prerequisites_fail_fast env_offline)))).
Defined.

(** ** Geolocation resolver *)

Section geolocation.

Variable env : environment.

(** The all-"N/A" result has the three fields and nothing else. *)
Lemma na_geo_fields :
  na_geo !! "country" = Some (VStr "N/A") ∧
  na_geo !! "region" = Some (VStr "N/A") ∧
  na_geo !! "city" = Some (VStr "N/A") ∧
  size na_geo = 3%nat.
Proof. repeat split; vm_compute; reflexivity. Qed.

(** C6: on the empty string and on "N/A" the resolver returns the
    all-"N/A" result and issues no call; on every input, a request that
    raises or a response whose status is not 200 gives the all-"N/A"
    result as the returned value. *)
Theorem geolocation_defaults (ip_address : pyval) :
  (ip_address = VStr "" ∨ ip_address = VStr "N/A" →
   get_ip_geolocation env ip_address = (na_geo, [])) ∧
  (lookup_failed (http_get env (geo_url ip_address)) →
   (get_ip_geolocation env ip_address).1 = na_geo).
Proof.
  split.
  - by intros [-> | ->].
  - unfold get_ip_geolocation, lookup_failed.
    destruct (negb (truthy ip_address) || _); [done|].
    destruct (http_get env (geo_url ip_address)) as [|status body].
    + intros _. reflexivity.
    + intros Hne. cbn. by destruct (Z.eqb_spec status 200).
Qed.

(** Past the guard exactly one request is sent, with a timeout of 10. *)
Lemma geolocation_one_request (ip_address : pyval) :
  truthy ip_address = true → ip_address ≠ VStr "N/A" →
  (get_ip_geolocation env ip_address).2 = [HttpGet (geo_url ip_address) 10].
Proof.
  intros Ht Hne. unfold get_ip_geolocation. rewrite Ht.
  rewrite bool_decide_eq_false_2 by done.
  destruct (http_get env (geo_url ip_address)) as [|status [| |]];
    [reflexivity|..]; cbn; by destruct (status =? 200).
Qed.

End geolocation.

Lemma geolocation_defaults_witness :
  get_ip_geolocation env_ok (VStr "") = (na_geo, []) ∧
  get_ip_geolocation env_ok (VStr "N/A") = (na_geo, []) ∧
  (get_ip_geolocation env_offline (VStr "8.8.8.8")).1 = na_geo ∧
  (get_ip_geolocation (env_status 429) (VStr "8.8.8.8")).1 = na_geo.
Proof.
  split; [|split; [|split]].
  - apply (proj1 (geolocation_defaults env_ok (VStr ""))). by left.
  - apply (proj1 (geolocation_defaults env_ok (VStr "N/A"))). by right.
  - apply (proj2 (geolocation_defaults env_offline (VStr "8.8.8.8"))).
    exact I.
  - apply (proj2 (geolocation_defaults (env_status 429) (VStr "8.8.8.8"))).
    simpl. lia.
Defined.

(** ** Profitability checker *)

Section profitability.

(** C7: a record with pax "1" and client name "City Tour" gives "Solo
    traveler (1 PAX)"; pax "1" and "Shore Excursion Day Trip" give the
    three tags in order; pax "4" and "Grand Nile Cruise" give "No issues
    identified". Only the two fields matter. *)
Theorem check_profitability_examples (lead_data : gmap string pyval) :
  (lead_data !! "pax" = Some (VStr "1") →
   lead_data !! "client_name" = Some (VStr "City Tour") →
   check_profitability lead_data = "Solo traveler (1 PAX)") ∧
  (lead_data !! "pax" = Some (VStr "1") →
   lead_data !! "client_name" = Some (VStr "Shore Excursion Day Trip") →
   check_profitability lead_data
     = "Solo traveler (1 PAX); Shore excursion; Short duration trip") ∧
  (lead_data !! "pax" = Some (VStr "4") →
   lead_data !! "client_name" = Some (VStr "Grand Nile Cruise") →
   check_profitability lead_data = "No issues identified").
Proof.
  unfold check_profitability, dict_get.
  repeat split; intros -> ->; vm_compute; reflexivity.
Qed.

End profitability.

Lemma check_profitability_examples_witness :
  check_profitability solo_city_tour = "Solo traveler (1 PAX)" ∧
  check_profitability solo_shore_day_trip
    = "Solo traveler (1 PAX); Shore excursion; Short duration trip" ∧
  check_profitability four_nile_cruise = "No issues identified".
Proof.
  split; [|split].
  - apply (proj1 (check_profitability_examples solo_city_tour));
      reflexivity.
  - apply (proj1 (proj2 (check_profitability_examples solo_shore_day_trip)));
      reflexivity.
  - apply (proj2 (proj2 (check_profitability_examples four_nile_cruise)));
      reflexivity.
Defined.

(** ** Worksheet records *)

Section records.

Lemma dict_zip_rev {V : Type} (keys : list string) (values : list V) :
  dict_zip keys values = list_to_map (reverse (zip keys values)).
Proof.
  unfold dict_zip. generalize (zip keys values) as l. intros l.
  induction l as [|[k v] l IH] using rev_ind; [done|].
  rewrite foldl_app, reverse_app. simpl. by rewrite IH.
Qed.

(** Under a key that occurs once among the keys, the record holds the
    value of the same column. *)
Lemma dict_zip_lookup {V : Type} (keys : list string) (values : list V)
    (i : nat) (k : string) (v : V) :
  (∀ j, keys !! j = Some k → j = i) →
  keys !! i = Some k → values !! i = Some v →
  dict_zip keys values !! k = Some v.
Proof.
  intros Honce Hk Hv. rewrite dict_zip_rev.
  apply elem_of_list_to_map_1'.
  - intros y Hy. rewrite elem_of_reverse in Hy.
    apply list_elem_of_lookup in Hy as [j Hj].
    rewrite lookup_zip_with in Hj.
    destruct (keys !! j) as [k'|] eqn:Hkj; [|done]. simpl in Hj.
    destruct (values !! j) as [v'|] eqn:Hvj; [|done]. simpl in Hj.
    injection Hj as -> ->. apply Honce in Hkj as ->. congruence.
  - rewrite elem_of_reverse. apply list_elem_of_lookup. exists i.
    rewrite lookup_zip_with, Hk. simpl. by rewrite Hv.
Qed.

Lemma exact_order_headers_NoDup : NoDup exact_order_headers.
Proof. apply (bool_decide_unpack _). vm_compute. exact I. Qed.

Lemma exact_order_headers_filled : "" ∉ exact_order_headers.
Proof. apply (bool_decide_unpack _). vm_compute. exact I. Qed.

Lemma rightpad_lookup (max_len : nat) (texts : list string) (i : nat) :
  (i < max_len)%nat →
  rightpad max_len texts !! i = Some (default "" (texts !! i)).
Proof.
  intros Hi. unfold rightpad. destruct (texts !! i) as [t|] eqn:Ht.
  - rewrite lookup_app_l by (by eapply lookup_lt_Some). by rewrite Ht.
  - apply lookup_ge_None in Ht. rewrite lookup_app_r by done.
    apply lookup_replicate_2. lia.
Qed.

(** A header occurs once in the filled-up header row. *)
Lemma header_once (max_len i j : nat) (header : string) :
  exact_order_headers !! i = Some header →
  rightpad max_len exact_order_headers !! j = Some header → j = i.
Proof.
  unfold rightpad. intros Hi Hj.
  apply lookup_app_Some in Hj as [Hj | [_ Hj]].
  - exact (NoDup_lookup _ _ _ _ exact_order_headers_NoDup Hj Hi).
  - apply lookup_replicate in Hj as [-> _]. exfalso.
    apply exact_order_headers_filled. by eapply list_elem_of_lookup_2.
Qed.

(** Under the header row, the texts of a row are found under each header
    in the cell of that column; a cell the row lacks is blank. *)
Lemma text_lookup (r : cell_reader) (max_len : nat) (cells : list pyval)
    (i : nat) (header : string) :
  (55 ≤ max_len)%nat → exact_order_headers !! i = Some header →
  dict_zip (rightpad max_len exact_order_headers)
      (rightpad max_len (cell_text r <$> cells)) !! header
    = Some (cell_text r (default VNone (cells !! i))).
Proof.
  intros Hlen Hi.
  assert (i < 55)%nat as Hlt by exact (lookup_lt_Some _ _ _ Hi).
  apply (dict_zip_lookup _ _ i).
  - intros j. by apply header_once.
  - rewrite rightpad_lookup by lia. by rewrite Hi.
  - rewrite rightpad_lookup by lia.
    rewrite list_lookup_fmap. by destruct (cells !! i).
Qed.

(** And the record of the row holds under each header what that cell
    reads as. *)
Lemma record_lookup (r : cell_reader) (max_len : nat) (cells : list pyval)
    (i : nat) (header : string) :
  (55 ≤ max_len)%nat → exact_order_headers !! i = Some header →
  dict_zip (rightpad max_len exact_order_headers)
      (numericise r <$> rightpad max_len (cell_text r <$> cells)) !! header
    = Some (read_cell r (default VNone (cells !! i))).
Proof.
  intros Hlen Hi.
  assert (i < 55)%nat as Hlt by exact (lookup_lt_Some _ _ _ Hi).
  apply (dict_zip_lookup _ _ i).
  - intros j. by apply header_once.
  - rewrite rightpad_lookup by lia. by rewrite Hi.
  - rewrite list_lookup_fmap, rightpad_lookup by lia.
    rewrite list_lookup_fmap. by destruct (cells !! i).
Qed.

(** The texts and the records of a worksheet whose top row is the header
    row. *)
Lemma values_under_header (r : cell_reader) (rows : list (list pyval)) :
  ∃ max_len, (55 ≤ max_len)%nat ∧
    get_all_values r (header_row :: rows) =
      rightpad max_len exact_order_headers
        :: ((λ cells, rightpad max_len (cell_text r <$> cells)) <$> rows).
Proof.
  exists (max_list (length <$> (fmap (cell_text r) <$> (header_row :: rows)))).
  split.
  - rewrite !fmap_cons. cbn [max_list]. rewrite length_fmap.
    change (length header_row) with 55%nat. apply Nat.le_max_l.
  - unfold get_all_values. cbv zeta.
    generalize (max_list
                  (length <$> (fmap (cell_text r) <$> (header_row :: rows)))).
    intros max_len. rewrite !fmap_cons. by rewrite <- !list_fmap_compose.
Qed.

Lemma records_under_header (r : cell_reader) (rows : list (list pyval)) :
  ∃ max_len, (55 ≤ max_len)%nat ∧
    get_all_records r (header_row :: rows) =
      (λ cells, dict_zip (rightpad max_len exact_order_headers)
                  (numericise r <$> rightpad max_len (cell_text r <$> cells)))
        <$> rows.
Proof.
  destruct (values_under_header r rows) as (max_len & Hlen & Hvalues).
  exists max_len. split; [done|]. unfold get_all_records.
  rewrite Hvalues. by rewrite <- list_fmap_compose.
Qed.

(** The token texts of an initialised worksheet are the texts of the
    cells of the token column. *)
Lemma token_texts_initialised (r : cell_reader) (s : list (list pyval)) :
  initialised s →
  token_texts r s
    = (λ cells, cell_text r (default VNone (cells !! 30%nat))) <$> tail s.
Proof.
  unfold initialised, token_texts. destruct s as [|keys rows]; [done|].
  intros [= ->]. destruct (values_under_header r rows) as (max_len & Hlen & ->).
  rewrite <- list_fmap_compose. apply list_fmap_ext. intros i cells _.
  unfold compose.
  by rewrite (text_lookup r max_len cells 30 "Request Token" Hlen eq_refl).
Qed.

(** The request tokens read from an initialised worksheet are what the
    cells of the token column read as. *)
Lemma sheet_tokens_initialised (r : cell_reader) (s : list (list pyval)) :
  initialised s →
  sheet_tokens r s
    = (λ cells, read_cell r (default VNone (cells !! 30%nat))) <$> tail s.
Proof.
  unfold initialised, sheet_tokens. destruct s as [|keys rows]; [done|].
  intros [= ->]. destruct (records_under_header r rows) as (max_len & Hlen & ->).
  rewrite <- list_fmap_compose. apply list_fmap_ext. intros i cells _.
  unfold compose, record_get.
  by rewrite (record_lookup r max_len cells 30 "Request Token" Hlen eq_refl).
Qed.

Lemma initialised_append (s rows : list (list pyval)) :
  initialised s → initialised (s ++ rows).
Proof. unfold initialised. by destruct s. Qed.

(** The token read back from a row built by [row_data] is what the
    lead's request token reads as. *)
Lemma sheet_tokens_append (r : cell_reader) (s : list (list pyval))
    (leads : list (gmap string pyval)) :
  initialised s →
  sheet_tokens r (s ++ (row_data <$> leads))
    = sheet_tokens r s ++ ((λ lead, read_cell r (request_token lead)) <$> leads).
Proof.
  intros Hinit.
  rewrite !sheet_tokens_initialised by (done || by apply initialised_append).
  destruct s as [|keys rows]; [done|]. simpl tail. rewrite fmap_app. f_equal.
  by rewrite <- list_fmap_compose.
Qed.

Lemma token_texts_append (r : cell_reader) (s : list (list pyval))
    (leads : list (gmap string pyval)) :
  initialised s →
  token_texts r (s ++ (row_data <$> leads))
    = token_texts r s ++ ((λ lead, cell_text r (request_token lead)) <$> leads).
Proof.
  intros Hinit.
  rewrite !token_texts_initialised by (done || by apply initialised_append).
  destruct s as [|keys rows]; [done|]. simpl tail. rewrite fmap_app. f_equal.
  by rewrite <- list_fmap_compose.
Qed.

(** On an initialised worksheet, the tokens read are the token texts
    passed through [numericise]. *)
Lemma sheet_tokens_texts (r : cell_reader) (s : list (list pyval)) :
  initialised s → sheet_tokens r s = numericise r <$> token_texts r s.
Proof.
  intros Hinit. rewrite sheet_tokens_initialised, token_texts_initialised
    by done.
  by rewrite <- list_fmap_compose.
Qed.

(** No worksheet of a single row has a record. *)
Lemma sheet_tokens_single_row (r : cell_reader) (cells : list pyval) :
  sheet_tokens r [cells] = [].
Proof. reflexivity. Qed.

(** The decimal notation of a number is ASCII text. *)
Lemma pretty_N_go_ascii (x : N) (s : string) :
  is_ascii_text s = true → is_ascii_text (pretty_N_go x s) = true.
Proof.
  revert s. induction (N.lt_wf_0 x) as [x _ IH]. intros s Hs.
  destruct (decide (x = 0)%N) as [->|Hpos].
  - by rewrite pretty_N_go_0.
  - rewrite pretty_N_go_step by lia. apply IH.
    + apply N.div_lt; lia.
    + cbn [is_ascii_text]. rewrite Hs, andb_true_r.
      unfold pretty_N_char. by repeat case_match.
Qed.

Lemma pretty_Z_ascii (x : Z) : is_ascii_text (pretty x) = true.
Proof.
  assert (∀ p, is_ascii_text (pretty (Npos p)) = true) as Hpos.
  { intros p. unfold pretty, pretty_N. rewrite decide_False by done.
    by apply pretty_N_go_ascii. }
  destruct x as [|p|p]; [done | apply Hpos |].
  change (pretty (Z.neg p)) with ("-" +:+ pretty (Npos p)).
  rewrite append_String, append_empty. cbn [is_ascii_text].
  by rewrite Hpos.
Qed.

(** The token of a sample lead reads back as written. *)
Lemma sample_token_read (r : cell_reader) (x : Z) :
  read_cell r (VStr ("TEST" +:+ pretty x)) = RVal (VStr ("TEST" +:+ pretty x)).
Proof.
  unfold read_cell, numericise. cbn [cell_text].
  destruct (contains "_" ("TEST" +:+ pretty x)); [done|].
  rewrite !append_String, append_empty. cbn [is_ascii_text].
  by rewrite pretty_Z_ascii.
Qed.

End records.

(** ** Header initializer and row builder *)

Section columns.

Lemma header_fields :
  field_of_header <$> exact_order_headers
    = ["row_number"; "hub"; "client_name"; "nationality"; "email";
       "operator"; "file_status"; "arrival"; "departure"; "pax";
       "lead_operation"; "request_channel"; "communication"; "medium";
       "offered_income"; "offered_income_usd"; "actual_paid_amount";
       "actual_paid_amount_usd"; "remaining_payment";
       "remaining_payment_usd"; "submission_date"; "confirmation_date";
       "company"; "department"; "product_title"; "utm_campaign";
       "initial_price"; "device_type"; "client_phone"; "file_no";
       "request_token"; "sales_person"; "request_status"; "source";
       "vip_status"; "loyalty_program"; "group"; "has_int_flight";
       "single_room"; "double_room"; "triple_room"; "family_room";
       "int_flight_amount"; "int_flight_currency"; "agent_group_discount";
       "agent_score"; "agent_recommendation"; "ip_country"; "ip_region";
       "ip_city"; "profitability_flag"; "communications_count";
       "last_updated"; "lead_id"; "lead_url"].
Proof. vm_compute. reflexivity. Qed.

Lemma row_data_by_header (lead : gmap string pyval) :
  row_data lead
    = (λ header, dict_get lead (field_of_header header) (VStr ""))
        <$> exact_order_headers.
Proof.
  rewrite (list_fmap_compose field_of_header
             (λ key, dict_get lead key (VStr ""))).
  rewrite header_fields. reflexivity.
Qed.

Local Ltac scan_trace :=
  repeat (apply Forall_cons_2; [first [by left | by right]|]);
  apply Forall_nil_2.

Lemma setup_inserts_header_row (b : setup_backend) (s : list (list pyval))
    (values : list pyval) (index : Z) :
  SheetInsertRow values index ∈ (setup_exact_order_headers b s).2 →
  values = header_row ∧ index = 1.
Proof.
  unfold setup_exact_order_headers. generalize header_row. intros top.
  assert (∀ trace : list event,
            Forall (λ e, e = SheetInsertRow top 1 ∨
                         ∀ v i, e ≠ SheetInsertRow v i) trace →
            SheetInsertRow values index ∈ trace → values = top ∧ index = 1)
    as Hscan.
  { intros trace Hall Hin. rewrite Forall_forall in Hall.
    destruct (Hall _ Hin) as [[= -> ->] | Hne]; [done|]. by destruct (Hne values index). }
  intros Hin. apply Hscan in Hin; [done|]. clear Hin Hscan.
  destruct (open_by_key_result b); cbn; [|scan_trace..].
  destruct (get_worksheet_result b); cbn; [|scan_trace..].
  destruct (clear_result b); cbn; [|scan_trace..].
  destruct (insert_row_result b); cbn; [|scan_trace..].
  destruct (format_result b); cbn; scan_trace.
Qed.

(** C8: whatever the worksheet held before, the only row the header
    initializer inserts is the row of the 55 header strings, at the top,
    and once its calls return that row is the whole worksheet; for every
    lead the row builder gives 55 cells, the cell in each column being
    the lead field that the column's header names. *)
Theorem header_and_row_columns (b : setup_backend) (s : list (list pyval))
    (lead : gmap string pyval) :
  length exact_order_headers = 55%nat ∧
  (∀ values index,
     SheetInsertRow values index ∈ (setup_exact_order_headers b s).2 →
     values = VStr <$> exact_order_headers ∧ index = 1) ∧
  (open_by_key_result b = ApiOk → get_worksheet_result b = ApiOk →
   clear_result b = ApiOk → insert_row_result b = ApiOk →
   (setup_exact_order_headers b s).1.2 = [VStr <$> exact_order_headers]) ∧
  length (row_data lead) = 55%nat ∧
  row_data lead
    = (λ header, dict_get lead (field_of_header header) (VStr ""))
        <$> exact_order_headers.
Proof.
  split; [reflexivity|]. split; [apply setup_inserts_header_row|].
  split; [|split; [reflexivity | apply row_data_by_header]].
  unfold setup_exact_order_headers. intros -> -> -> ->.
  by destruct (format_result b).
Qed.

Lemma header_and_row_columns_witness :
  (setup_exact_order_headers all_calls_return sheet_with_A).1.2
    = [VStr <$> exact_order_headers].
Proof.
  by apply (proj1 (proj2 (proj2
    (header_and_row_columns all_calls_return sheet_with_A ∅)))).
Defined.

End columns.

(** ** Sync orchestrator *)

Section sync.

#[local] Instance RVal_inj : Inj (=) (=) RVal.
Proof. by intros v1 v2 [= ->]. Qed.

Lemma loop_body_step (existing : gset read_value)
    (new_rows : list (list pyval)) (updated_count : Z)
    (lead : gmap string pyval) :
  loop_body existing (new_rows, updated_count) lead
    = if bool_decide (RVal (request_token lead) ∉ existing)
      then (new_rows ++ [row_data lead], updated_count + 1)
      else (new_rows, updated_count).
Proof. reflexivity. Qed.

(** The loop keeps what was gathered and adds, in order, the rows of the
    leads whose token is not among the existing ones. *)
Lemma loop_spec (existing : gset read_value)
    (leads : list (gmap string pyval))
    (new_rows : list (list pyval)) (updated_count : Z) :
  foldl (loop_body existing) (new_rows, updated_count) leads
    = (new_rows ++ (row_data <$> fresh_leads existing leads),
       updated_count + Z.of_nat (length (fresh_leads existing leads))).
Proof.
  unfold fresh_leads.
  revert new_rows updated_count.
  induction leads as [|lead leads IH]; intros new_rows updated_count.
  - simpl. rewrite app_nil_r. f_equal. lia.
  - change (foldl (loop_body existing) (new_rows, updated_count)
              (lead :: leads))
      with (foldl (loop_body existing)
              (loop_body existing (new_rows, updated_count) lead) leads).
    rewrite loop_body_step, filter_cons.
    destruct (decide (RVal (request_token lead) ∉ existing)) as [Hnew|Hold].
    + rewrite bool_decide_eq_true_2 by done. rewrite IH.
      rewrite fmap_cons, <- app_assoc. simpl. f_equal. lia.
    + rewrite bool_decide_eq_false_2 by done. apply IH.
Qed.

(** What a sync does once the existing rows were read. *)
Lemma sync_after_read (b : sync_backend) (s : list (list pyval))
    (leads : list (gmap string pyval)) :
  read_succeeds b = true →
  let fresh :=
    fresh_leads (list_to_set (sheet_tokens (reading b) s)) leads in
  sync_to_google_sheets b (Some s) leads =
    match fresh with
    | [] => (0, Some s)
    | _ :: _ =>
        if append_succeeds b
        then (Z.of_nat (length fresh), Some (s ++ (row_data <$> fresh)))
        else (0, Some s)
    end.
Proof.
  intros Hread. unfold sync_to_google_sheets. rewrite Hread.
  unfold tokens_of_records. fold (sheet_tokens (reading b) s).
  rewrite loop_spec.
  simpl. destruct (fresh_leads _ leads) as [|lead fresh]; [done|].
  simpl. by destruct (append_succeeds b).
Qed.

Lemma fresh_leads_empty (leads : list (gmap string pyval)) :
  fresh_leads ∅ leads = leads.
Proof.
  unfold fresh_leads. induction leads as [|lead leads IH]; [done|].
  rewrite filter_cons_True by set_solver. by rewrite IH.
Qed.

(** What a sync does when reading the existing rows raised: every lead
    is taken as new. *)
Lemma sync_after_failed_read (b : sync_backend) (s : list (list pyval))
    (leads : list (gmap string pyval)) :
  read_succeeds b = false → append_succeeds b = true →
  sync_to_google_sheets b (Some s) leads
    = (Z.of_nat (length leads), Some (s ++ (row_data <$> leads))).
Proof.
  intros Hread Happend. unfold sync_to_google_sheets.
  rewrite Hread, Happend, loop_spec, fresh_leads_empty.
  simpl. destruct leads; [|done]. simpl. by rewrite app_nil_r.
Qed.

Lemma fresh_leads_NoDup (existing : gset read_value)
    (leads : list (gmap string pyval)) :
  NoDup (request_token <$> leads) →
  NoDup (request_token <$> fresh_leads existing leads).
Proof.
  intros Hnd. eapply sublist_NoDup; [exact Hnd|].
  apply fmap_sublist, sublist_filter.
Qed.


(** After the rows of the new leads are appended, the token of every
    lead whose token reads back as written is in the worksheet. *)
Lemma token_after_append (r : cell_reader) (s : list (list pyval))
    (leads : list (gmap string pyval)) (lead : gmap string pyval) :
  initialised s → lead ∈ leads →
  read_as_written r (request_token lead) →
  RVal (request_token lead) ∈
    sheet_tokens r
      (s ++ (row_data <$> fresh_leads (list_to_set (sheet_tokens r s)) leads)).
Proof.
  intros Hinit Hin [_ Hread]. rewrite sheet_tokens_append, elem_of_app by done.
  destruct (decide (RVal (request_token lead) ∈ sheet_tokens r s))
    as [Hold|Hnew]; [by left | right].
  rewrite <- Hread.
  apply (list_elem_of_fmap_2 (λ lead, read_cell r (request_token lead))).
  unfold fresh_leads. apply list_elem_of_filter. split; [|done].
  by rewrite elem_of_list_to_set.
Qed.

(** C1, on the code: with the token set {"A"} in the worksheet and
    incoming tokens "A", "B", "B", the sync appends two rows, both for
    token "B", and returns 2, where the claim has one row and 1. *)
Example sync_appends_duplicate_incoming_token :
  tokens_of_records (get_all_records (reading backend_ok) sheet_with_A)
    = {[RVal (VStr "A")]} ∧
  request_token <$> leads_A_B_B = [VStr "A"; VStr "B"; VStr "B"] ∧
  sync_to_google_sheets backend_ok (Some sheet_with_A) leads_A_B_B
    = (2, Some (sheet_with_A ++ [row_data (lead_with_token "B");
                                 row_data (lead_with_token "B")])).
Proof. split; [|split]; vm_compute; reflexivity. Qed.

(** C2, as stated, fails twice over.  When reading the existing rows
    raises, the lead with token "A" is appended to a worksheet that
    already holds that token.  And when the read returns, a token that
    looks like a number is read back as that number, which is no string:
    the lead with token "123" is appended to a worksheet that already
    holds it.  Either way the token then occurs twice. *)
Lemma sync_failed_read_duplicates :
  (initialised sheet_with_A ∧ token_unique plain_reader sheet_with_A ∧
   ∃ s', (sync_to_google_sheets backend_read_fails (Some sheet_with_A)
            [lead_with_token "A"]).2 = Some s' ∧
         ¬ token_unique plain_reader s') ∧
  (initialised sheet_with_123 ∧ token_unique plain_reader sheet_with_123 ∧
   token_texts plain_reader sheet_with_123 = ["123"] ∧
   sheet_tokens plain_reader sheet_with_123 = [RVal (VInt 123)] ∧
   ∃ s', sync_to_google_sheets backend_ok (Some sheet_with_123)
           [lead_with_token "123"] = (1, Some s') ∧
         ¬ token_unique plain_reader s').
Proof.
  split.
  - split; [reflexivity|]. split.
    + apply (bool_decide_unpack _). vm_compute. exact I.
    + eexists. split; [reflexivity|].
      unfold token_unique. intros Hnd.
      apply (bool_decide_pack _) in Hnd. vm_compute in Hnd. exact Hnd.
  - split; [reflexivity|]. split; [|split; [|split]].
    + apply (bool_decide_unpack _). vm_compute. exact I.
    + vm_compute. reflexivity.
    + vm_compute. reflexivity.
    + eexists. split; [vm_compute; reflexivity|].
      unfold token_unique. intros Hnd.
      apply (bool_decide_pack _) in Hnd. vm_compute in Hnd. exact Hnd.
Qed.

(** C2, amended: on an initialised worksheet in which no request token
    occurs twice, take a sync that reads the existing rows, given leads
    whose tokens are pairwise distinct, not empty, and read back as
    written.  It appends exactly the rows of the leads whose token was
    not present, in the order of the leads, and returns their number; or
    it appends nothing and returns 0, when the append raises.  In the
    worksheet it leaves, no request token occurs twice. *)
Theorem sync_preserves_token_unique (b : sync_backend)
    (s : list (list pyval)) (leads : list (gmap string pyval)) :
  initialised s → token_unique (reading b) s → read_succeeds b = true →
  NoDup (request_token <$> leads) →
  Forall (λ lead, read_as_written (reading b) (request_token lead)) leads →
  let fresh :=
    fresh_leads (list_to_set (sheet_tokens (reading b) s)) leads in
  ∃ s', sync_to_google_sheets b (Some s) leads
          = (if append_succeeds b then Z.of_nat (length fresh) else 0,
             Some s') ∧
        s' = (if append_succeeds b then s ++ (row_data <$> fresh) else s) ∧
        token_unique (reading b) s'.
Proof.
  intros Hinit Huniq Hread Hnd Hwritten fresh.
  assert (token_unique (reading b) (s ++ (row_data <$> fresh))) as Hafter.
  { unfold token_unique. rewrite token_texts_append by done.
    rewrite Forall_forall in Hwritten.
    apply NoDup_app. split; [done|]. split.
    - intros text Hin Hfresh.
      apply list_elem_of_fmap in Hfresh as (lead & -> & Hfresh).
      apply list_elem_of_filter in Hfresh as [Hnew Hlead].
      apply Hnew. rewrite elem_of_list_to_set, sheet_tokens_texts by done.
      rewrite <- (proj2 (Hwritten lead Hlead)).
      by apply (list_elem_of_fmap_2 (numericise (reading b))).
    - rewrite (list_fmap_compose request_token (cell_text (reading b))).
      apply NoDup_fmap_2_strong; [|by apply fresh_leads_NoDup].
      intros t1 t2 Ht1 Ht2 Htext.
      apply list_elem_of_fmap in Ht1 as (lead1 & -> & Hlead1).
      apply list_elem_of_fmap in Ht2 as (lead2 & -> & Hlead2).
      apply list_elem_of_filter in Hlead1 as [_ Hlead1].
      apply list_elem_of_filter in Hlead2 as [_ Hlead2].
      apply (inj RVal).
      rewrite <- (proj2 (Hwritten lead1 Hlead1)),
        <- (proj2 (Hwritten lead2 Hlead2)).
      unfold read_cell. by rewrite Htext. }
  rewrite (sync_after_read b s leads Hread). cbv zeta. fold fresh.
  destruct (append_succeeds b).
  - exists (s ++ (row_data <$> fresh)). split; [|done].
    destruct fresh; [|done]. simpl. by rewrite app_nil_r.
  - exists s. split; [|done]. by destruct fresh.
Qed.

Lemma sync_preserves_token_unique_witness :
  ∃ s', sync_to_google_sheets backend_ok (Some sheet_with_A)
          [lead_with_token "A"; lead_with_token "B"]
          = (1, Some s') ∧
        s' = sheet_with_A ++ [row_data (lead_with_token "B")] ∧
        token_unique plain_reader s'.
Proof.
  apply (sync_preserves_token_unique backend_ok sheet_with_A
           [lead_with_token "A"; lead_with_token "B"]).
  - reflexivity.
  - apply (bool_decide_unpack _). vm_compute. exact I.
  - reflexivity.
  - apply (bool_decide_unpack _). vm_compute. exact I.
  - apply (bool_decide_unpack _). vm_compute. exact I.
Defined.




End sync.

(** * Further properties *)

(** ** Agent scorer, on every input *)

Section scorer_any_input.

Lemma lower_ascii_idemp (c : ascii) : lower_ascii (lower_ascii c) = lower_ascii c.
Proof. by destruct c as [[] [] [] [] [] [] [] []]. Qed.

Lemma lower_idemp (s : string) : lower (lower s) = lower s.
Proof.
  induction s as [|c s IH]; [done|]. simpl. by rewrite lower_ascii_idemp, IH.
Qed.

Lemma score_range (communications_count lead_status : pyval) :
  1 ≤ (score_sales_agent communications_count lead_status).1 ≤ 10.
Proof.
  unfold score_sales_agent, base_score, error_score.
  destruct (py_eq_int communications_count 0),
    (py_eq_int communications_count 1),
    (contains "confirmed" (status_of lead_status)),
    (contains "new" (status_of lead_status)),
    (py_gt_int communications_count 0) as [[|]|]; simpl; lia.
Qed.

(** X1: whatever the count and the status are, integers or not, the
    returned score lies between 1 and 10. *)
Theorem score_between_1_and_10 (communications_count lead_status : pyval) :
  1 ≤ (score_sales_agent communications_count lead_status).1 ∧
  (score_sales_agent communications_count lead_status).1 ≤ 10.
Proof.
  unfold score_sales_agent, base_score, error_score.
  destruct (py_eq_int communications_count 0),
    (py_eq_int communications_count 1),
    (contains "confirmed" (status_of lead_status)),
    (contains "new" (status_of lead_status)),
    (py_gt_int communications_count 0) as [[|]|]; simpl; lia.
Qed.

(** X2: with a count that is not an integer, a status that contains
    "confirmed" still gives (10, "Lead successfully converted"), since
    the count is never compared; otherwise a status that contains "new"
    makes the comparison raise and gives the fallback (5, "Error
    calculating score"); any other status gives the base pair of the
    [else] branch. *)
Theorem score_with_non_integer_count (communications_count : pyval)
    (lead_status : string) :
  (∀ n, communications_count ≠ VInt n) →
  (SubstringCI "confirmed" lead_status →
   score_sales_agent communications_count (VStr lead_status)
     = (10, "Lead successfully converted")) ∧
  (¬ SubstringCI "confirmed" lead_status →
   SubstringCI "new" lead_status →
   score_sales_agent communications_count (VStr lead_status)
     = (5, "Error calculating score")) ∧
  (¬ SubstringCI "confirmed" lead_status →
   ¬ SubstringCI "new" lead_status →
   score_sales_agent communications_count (VStr lead_status)
     = (8, "Active communication maintained")).
Proof.
  intros Hcount. unfold SubstringCI, score_sales_agent.
  rewrite status_of_str.
  change (lower "confirmed") with "confirmed".
  change (lower "new") with "new".
  assert (base_score communications_count
          = (8, "Active communication maintained")) as ->.
  { destruct communications_count as [| |n]; [done|done|].
    by destruct (Hcount n). }
  assert (py_gt_int communications_count 0 = None) as Hgt.
  { destruct communications_count as [| |n]; [done|done|].
    by destruct (Hcount n). }
  split; [|split].
  - intros Hc%contains_spec. by rewrite Hc.
  - intros Hc%contains_false Hn%contains_spec. by rewrite Hc, Hn, Hgt.
  - intros Hc%contains_false Hn%contains_false. by rewrite Hc, Hn.
Qed.

Lemma score_with_non_integer_count_witness :
  score_sales_agent VNone (VStr "Confirmed")
    = (10, "Lead successfully converted") ∧
  score_sales_agent (VStr "3") (VStr "New Request")
    = (5, "Error calculating score") ∧
  score_sales_agent (VStr "3") (VStr "Pending")
    = (8, "Active communication maintained").
Proof.
  split; [|split].
  - apply (proj1 (score_with_non_integer_count VNone "Confirmed"
                    ltac:(discriminate))).
    apply contains_spec. reflexivity.
  - apply (proj1 (proj2 (score_with_non_integer_count (VStr "3")
                           "New Request" ltac:(discriminate)))).
    + apply contains_false. reflexivity.
    + apply contains_spec. reflexivity.
  - apply (proj2 (proj2 (score_with_non_integer_count (VStr "3")
                           "Pending" ltac:(discriminate)))).
    + apply contains_false. reflexivity.
    + apply contains_false. reflexivity.
Defined.

(** X3: for an integer count the two clamps never take effect: a status
    with "confirmed" returns exactly the base score plus 2, and a status
    with "new" but not "confirmed", on a positive count, exactly the base
    score minus 1. *)
Theorem score_adjustment_unclamped (c : Z) (lead_status : string) :
  (SubstringCI "confirmed" lead_status →
   (score_sales_agent (VInt c) (VStr lead_status)).1
     = (base_score (VInt c)).1 + 2) ∧
  (¬ SubstringCI "confirmed" lead_status →
   SubstringCI "new" lead_status → 0 < c →
   (score_sales_agent (VInt c) (VStr lead_status)).1
     = (base_score (VInt c)).1 - 1).
Proof.
  unfold SubstringCI, score_sales_agent. rewrite status_of_str.
  change (lower "confirmed") with "confirmed".
  change (lower "new") with "new".
  rewrite base_score_int. split.
  - intros Hc%contains_spec. rewrite Hc.
    destruct (c =? 0), (c =? 1); reflexivity.
  - intros Hc%contains_false Hn%contains_spec Hpos. rewrite Hc, Hn. simpl.
    destruct (Z.ltb_spec 0 c); [|lia].
    destruct (c =? 0), (c =? 1); reflexivity.
Qed.

Lemma score_adjustment_unclamped_witness :
  (score_sales_agent (VInt 5) (VStr "CONFIRMED")).1
    = (base_score (VInt 5)).1 + 2 ∧
  (score_sales_agent (VInt 1) (VStr "new")).1 = (base_score (VInt 1)).1 - 1.
Proof.
  split.
  - apply (proj1 (score_adjustment_unclamped 5 "CONFIRMED")).
    apply contains_spec. reflexivity.
  - apply (proj2 (score_adjustment_unclamped 1 "new")).
    + apply contains_false. reflexivity.
    + apply contains_spec. reflexivity.
    + lia.
Defined.

(** X4: the letter case of the status does not matter: a status and its
    lower-case form give the same result, for every count. *)
Theorem score_ignores_letter_case (communications_count : pyval)
    (lead_status : string) :
  score_sales_agent communications_count (VStr (lower lead_status))
    = score_sales_agent communications_count (VStr lead_status).
Proof.
  unfold score_sales_agent. by rewrite !status_of_str, lower_idemp.
Qed.

(** X5: a status that is [None], the empty string or 0 adjusts nothing
    and compares nothing: the result is the base pair, also for a count
    that is not an integer. *)
Theorem score_without_status (communications_count lead_status : pyval) :
  truthy lead_status = false →
  score_sales_agent communications_count lead_status
    = base_score communications_count.
Proof.
  intros Hfalsy. unfold score_sales_agent, status_of. rewrite Hfalsy.
  by destruct (base_score communications_count).
Qed.

Lemma score_without_status_witness :
  score_sales_agent (VInt 1) VNone
    = (6, "Initial contact made, needs follow-up") ∧
  score_sales_agent VNone (VStr "") = (8, "Active communication maintained").
Proof.
  split.
  - apply (score_without_status (VInt 1) VNone). reflexivity.
  - apply (score_without_status VNone (VStr "")). reflexivity.
Defined.

End scorer_any_input.

(** ** Geolocation resolver, on every input *)

Section geolocation_any_input.

Variable env : environment.

Lemma geo_dict_dom (country region city : pyval) :
  dom (geo_dict country region city)
    = ({["country"; "region"; "city"]} : gset string).
Proof.
  unfold geo_dict. rewrite !dom_insert_L, dom_empty_L. set_solver.
Qed.

(** X6: whatever the input and whatever the service answers, the result
    has exactly the keys "country", "region" and "city". *)
Theorem geolocation_result_keys (ip_address : pyval) :
  dom (get_ip_geolocation env ip_address).1
    = ({["country"; "region"; "city"]} : gset string).
Proof.
  unfold get_ip_geolocation.
  destruct (negb (truthy ip_address) || _); [apply geo_dict_dom|].
  destruct (http_get env (geo_url ip_address)) as [|status body];
    [apply geo_dict_dom|].
  cbn. destruct (status =? 200); [|apply geo_dict_dom].
  destruct body; apply geo_dict_dom.
Qed.

(** X7: the resolver sends no request when the input is [None], empty, 0
    or "N/A", and otherwise exactly one, to the address built from the
    input, with a timeout of 10 seconds. *)
Theorem geolocation_requests (ip_address : pyval) :
  (truthy ip_address = false ∨ ip_address = VStr "N/A" →
   (get_ip_geolocation env ip_address).2 = []) ∧
  (truthy ip_address = true → ip_address ≠ VStr "N/A" →
   (get_ip_geolocation env ip_address).2
     = [HttpGet ("https://ipapi.co/" +:+ py_str ip_address +:+ "/json/")
          10]).
Proof.
  split.
  - unfold get_ip_geolocation. intros [-> | ->]; [done|].
    rewrite bool_decide_eq_true_2 by done. by rewrite orb_true_r.
  - apply geolocation_one_request.
Qed.

(** X8: on a response with status 200 whose body is a JSON object, each
    of the three fields is the object's value under "country_name",
    "region" and "city" (a null is passed on as [None]) and "N/A" only
    where the key is missing; when the body is not JSON or not an object
    the result is all "N/A". *)
Theorem geolocation_success (ip_address : pyval) (body : json_body) :
  truthy ip_address = true → ip_address ≠ VStr "N/A" →
  http_get env (geo_url ip_address) = HttpResponse 200 body →
  match body with
  | JsonObject data =>
      (get_ip_geolocation env ip_address).1 !! "country"
        = Some (default (VStr "N/A") (data !! "country_name")) ∧
      (get_ip_geolocation env ip_address).1 !! "region"
        = Some (default (VStr "N/A") (data !! "region")) ∧
      (get_ip_geolocation env ip_address).1 !! "city"
        = Some (default (VStr "N/A") (data !! "city"))
  | _ => (get_ip_geolocation env ip_address).1 = na_geo
  end.
Proof.
  intros Ht Hne Hresp. unfold get_ip_geolocation.
  rewrite Ht, bool_decide_eq_false_2, Hresp by done. cbn.
  destruct body as [|data|]; [done| |done].
  unfold geo_dict, dict_get.
  repeat split; simplify_map_eq; by destruct (data !! _).
Qed.

End geolocation_any_input.

Lemma geolocation_requests_witness :
  (get_ip_geolocation env_live VNone).2 = [] ∧
  (get_ip_geolocation env_live (VStr "N/A")).2 = [] ∧
  (get_ip_geolocation env_live (VStr "8.8.8.8")).2
    = [HttpGet "https://ipapi.co/8.8.8.8/json/" 10].
Proof.
  split; [|split].
  - apply (proj1 (geolocation_requests env_live VNone)). by left.
  - apply (proj1 (geolocation_requests env_live (VStr "N/A"))). by right.
  - apply (proj2 (geolocation_requests env_live (VStr "8.8.8.8")));
      [reflexivity | discriminate].
Defined.

Lemma geolocation_success_witness :
  (get_ip_geolocation env_live (VStr "8.8.8.8")).1 !! "country"
    = Some (VStr "United States") ∧
  (get_ip_geolocation env_live (VStr "8.8.8.8")).1 !! "region"
    = Some VNone ∧
  (get_ip_geolocation env_live (VStr "8.8.8.8")).1 !! "city"
    = Some (VStr "N/A").
Proof.
  apply (geolocation_success env_live (VStr "8.8.8.8")
           (JsonObject geo_answer));
    [reflexivity | discriminate | reflexivity].
Defined.

(** ** Profitability checker, on every record *)

Section profitability_any_record.

(** The three rules as the code tests them. *)
Lemma check_profitability_flags (lead_data : gmap string pyval) :
  let pax := lower (py_str (dict_get lead_data "pax" (VStr ""))) in
  let client_name :=
    lower (py_str (dict_get lead_data "client_name" (VStr ""))) in
  check_profitability lead_data =
    match String.eqb pax "1" || contains "solo" pax,
          contains "shore" client_name || contains "excursion" client_name,
          contains "day trip" client_name || contains "half day" client_name
    with
    | false, false, false => "No issues identified"
    | true, false, false => "Solo traveler (1 PAX)"
    | false, true, false => "Shore excursion"
    | false, false, true => "Short duration trip"
    | true, true, false => "Solo traveler (1 PAX); Shore excursion"
    | true, false, true => "Solo traveler (1 PAX); Short duration trip"
    | false, true, true => "Shore excursion; Short duration trip"
    | true, true, true =>
        "Solo traveler (1 PAX); Shore excursion; Short duration trip"
    end.
Proof.
  unfold check_profitability. cbv zeta.
  destruct (String.eqb _ "1" || contains "solo" _),
    (contains "shore" _ || contains "excursion" _),
    (contains "day trip" _ || contains "half day" _); reflexivity.
Qed.

(** X9: the result is always one of eight strings: "No issues
    identified" or the tags that apply, in the fixed order solo, shore,
    short, joined by "; ". It is never empty and never the error text. *)
Theorem check_profitability_outputs (lead_data : gmap string pyval) :
  check_profitability lead_data ∈
    ["No issues identified";
     "Solo traveler (1 PAX)";
     "Shore excursion";
     "Short duration trip";
     "Solo traveler (1 PAX); Shore excursion";
     "Solo traveler (1 PAX); Short duration trip";
     "Shore excursion; Short duration trip";
     "Solo traveler (1 PAX); Shore excursion; Short duration trip"].
Proof.
  rewrite check_profitability_flags. cbv zeta.
  destruct (String.eqb _ "1" || contains "solo" _),
    (contains "shore" _ || contains "excursion" _),
    (contains "day trip" _ || contains "half day" _); set_solver.
Qed.

(** X10: the result depends on the fields "pax" and "client_name" only:
    two records that agree on these two give the same result. *)
Theorem check_profitability_two_fields (lead_1 lead_2 : gmap string pyval) :
  lead_1 !! "pax" = lead_2 !! "pax" →
  lead_1 !! "client_name" = lead_2 !! "client_name" →
  check_profitability lead_1 = check_profitability lead_2.
Proof.
  intros Hpax Hname. unfold check_profitability, dict_get.
  by rewrite Hpax, Hname.
Qed.

(** X11: each tag is in the result exactly when its rule applies, the
    rules being tested on the lower-cased text of the two fields; the
    result is "No issues identified" exactly when no rule applies. *)
Theorem check_profitability_tags (lead_data : gmap string pyval) :
  let pax := lower (py_str (dict_get lead_data "pax" (VStr ""))) in
  let client_name :=
    lower (py_str (dict_get lead_data "client_name" (VStr ""))) in
  let solo := pax = "1" ∨ Substring "solo" pax in
  let shore :=
    Substring "shore" client_name ∨ Substring "excursion" client_name in
  let short :=
    Substring "day trip" client_name ∨ Substring "half day" client_name in
  (Substring "Solo traveler (1 PAX)" (check_profitability lead_data)
     ↔ solo) ∧
  (Substring "Shore excursion" (check_profitability lead_data) ↔ shore) ∧
  (Substring "Short duration trip" (check_profitability lead_data)
     ↔ short) ∧
  (check_profitability lead_data = "No issues identified"
     ↔ ¬ solo ∧ ¬ shore ∧ ¬ short).
Proof.
  cbv zeta. rewrite check_profitability_flags. cbv zeta.
  generalize (lower (py_str (dict_get lead_data "pax" (VStr "")))).
  generalize (lower (py_str (dict_get lead_data "client_name" (VStr "")))).
  intros client_name pax.
  rewrite <- !contains_spec.
  assert (pax = "1" ↔ String.eqb pax "1" = true) as ->
    by (symmetry; apply String.eqb_eq).
  destruct (String.eqb pax "1"), (contains "solo" pax),
    (contains "shore" client_name), (contains "excursion" client_name),
    (contains "day trip" client_name), (contains "half day" client_name);
    vm_compute; intuition congruence.
Qed.

(** X12: a record with neither "pax" nor "client_name" raises nothing
    and is reported as "No issues identified". *)
Theorem check_profitability_missing_fields (lead_data : gmap string pyval) :
  lead_data !! "pax" = None → lead_data !! "client_name" = None →
  check_profitability lead_data = "No issues identified".
Proof.
  intros Hpax Hname. unfold check_profitability, dict_get.
  by rewrite Hpax, Hname.
Qed.

End profitability_any_record.

Lemma check_profitability_two_fields_witness :
  check_profitability (lead_with_token "A")
    = check_profitability (lead_with_token "B").
Proof.
  apply (check_profitability_two_fields (lead_with_token "A")
           (lead_with_token "B")); reflexivity.
Defined.

Lemma check_profitability_missing_fields_witness :
  check_profitability ∅ = "No issues identified".
Proof.
  apply (check_profitability_missing_fields ∅); reflexivity.
Defined.

(** ** Sync orchestrator, on every backend *)

Section sync_any_backend.

(** The token set the loop tests against. *)
Lemma sync_some (b : sync_backend) (s : list (list pyval))
    (leads : list (gmap string pyval)) :
  let existing : gset read_value :=
    if read_succeeds b
    then list_to_set (sheet_tokens (reading b) s) else ∅ in
  let fresh := fresh_leads existing leads in
  sync_to_google_sheets b (Some s) leads =
    match fresh with
    | [] => (0, Some s)
    | _ :: _ =>
        if append_succeeds b
        then (Z.of_nat (length fresh), Some (s ++ (row_data <$> fresh)))
        else (0, Some s)
    end.
Proof.
  cbv zeta. unfold sync_to_google_sheets, tokens_of_records.
  fold (sheet_tokens (reading b) s). rewrite loop_spec. simpl.
  destruct (fresh_leads _ leads) as [|lead fresh]; [done|].
  simpl. by destruct (append_succeeds b).
Qed.

Lemma row_data_length (lead : gmap string pyval) :
  length (row_data lead) = 55%nat.
Proof. reflexivity. Qed.

(** X13: a sync never changes or removes a row: whatever the backend
    does, the worksheet afterwards is the worksheet before followed by
    the appended rows; the returned count is the number of these rows;
    they are rows of incoming leads, in the order of the leads, each of
    55 cells. *)
Theorem sync_only_appends (b : sync_backend) (s : list (list pyval))
    (leads : list (gmap string pyval)) :
  ∃ rows,
    sync_to_google_sheets b (Some s) leads
      = (Z.of_nat (length rows), Some (s ++ rows)) ∧
    rows `sublist_of` (row_data <$> leads) ∧
    Forall (λ row, length row = 55%nat) rows.
Proof.
  rewrite sync_some. cbv zeta.
  set (existing := if read_succeeds b then _ else _).
  assert ((row_data <$> fresh_leads existing leads)
            `sublist_of` (row_data <$> leads)) as Hsub
    by apply fmap_sublist, sublist_filter.
  assert (Forall (λ row, length row = 55%nat)
            (row_data <$> fresh_leads existing leads)) as Hwide.
  { apply Forall_fmap, Forall_true. intros lead. apply row_data_length. }
  destruct (fresh_leads existing leads) as [|lead fresh] eqn:Hfresh.
  - exists []. by rewrite app_nil_r.
  - destruct (append_succeeds b).
    + exists (row_data <$> lead :: fresh). by rewrite length_fmap.
    + exists []. rewrite app_nil_r. split; [done|]. split; [|done].
      apply sublist_nil_l.
Qed.

(** X14: when [append_rows] raises, the sync returns 0 and the worksheet
    is as before, however many rows had been prepared. *)
Theorem sync_append_failure (b : sync_backend)
    (self_sheet : option (list (list pyval)))
    (leads : list (gmap string pyval)) :
  append_succeeds b = false →
  sync_to_google_sheets b self_sheet leads = (0, self_sheet).
Proof.
  intros Hfail. destruct self_sheet as [s|]; [|done].
  rewrite sync_some, Hfail. cbv zeta. by destruct (fresh_leads _ leads).
Qed.

Lemma sync_append_failure_witness :
  sync_to_google_sheets backend_append_fails (Some sheet_with_A) leads_A_B_B
    = (0, Some sheet_with_A).
Proof.
  apply (sync_append_failure backend_append_fails (Some sheet_with_A)
           leads_A_B_B).
  reflexivity.
Defined.

(** X15: when reading the existing rows raises and the append returns,
    every incoming lead is appended, those already in the worksheet
    included, and the count is the number of incoming leads. *)
Theorem sync_read_failure_appends_all (b : sync_backend)
    (s : list (list pyval)) (leads : list (gmap string pyval)) :
  read_succeeds b = false → append_succeeds b = true →
  sync_to_google_sheets b (Some s) leads
    = (Z.of_nat (length leads), Some (s ++ (row_data <$> leads))).
Proof.
  intros Hread Happend. rewrite sync_some, Hread, Happend. cbv zeta.
  rewrite fresh_leads_empty. destruct leads; [|done].
  simpl. by rewrite app_nil_r.
Qed.

Lemma sync_read_failure_appends_all_witness :
  sync_to_google_sheets backend_read_fails (Some sheet_with_A) leads_A_B_B
    = (3, Some (sheet_with_A ++ (row_data <$> leads_A_B_B))).
Proof.
  apply (sync_read_failure_appends_all backend_read_fails sheet_with_A
           leads_A_B_B); reflexivity.
Defined.

(** X16: round trip through the worksheet: in the records read from a
    header row followed by rows built from leads, the i-th record holds
    under every header what is read back for the field of the i-th lead
    that the header names, or for the empty string where the lead lacks
    that field: the field itself when it is a text that [numericise]
    leaves alone, the number when it is the text of a number, the empty
    string when it is [None]. *)
Theorem records_of_lead_rows (r : cell_reader)
    (leads : list (gmap string pyval)) (i : nat)
    (record : gmap string read_value) (header : string) :
  get_all_records r (header_row :: (row_data <$> leads)) !! i = Some record →
  header ∈ exact_order_headers →
  ∃ lead, leads !! i = Some lead ∧
          record !! header
            = Some (read_cell r
                      (dict_get lead (field_of_header header) (VStr ""))).
Proof.
  destruct (records_under_header r (row_data <$> leads))
    as (max_len & Hlen & ->).
  rewrite !list_lookup_fmap.
  destruct (leads !! i) as [lead|] eqn:Hlead; [|done].
  intros Hrecord Hin. exists lead. split; [done|].
  apply (inj Some) in Hrecord. subst record.
  apply list_elem_of_lookup in Hin as [j Hj].
  rewrite (record_lookup r max_len (row_data lead) j header Hlen Hj).
  by rewrite row_data_by_header, list_lookup_fmap, Hj.
Qed.

(** X17: the initializer and the sync compose: on the worksheet that a
    successful header setup leaves, whatever it held before, a sync
    whose read and append return appends every lead, in order, and
    returns their number. *)
Theorem sync_after_header_setup (b0 : setup_backend) (b : sync_backend)
    (s : list (list pyval)) (leads : list (gmap string pyval)) :
  (setup_exact_order_headers b0 s).1.1 = HeadersSet →
  read_succeeds b = true → append_succeeds b = true →
  sync_to_google_sheets b (Some (setup_exact_order_headers b0 s).1.2) leads
    = (Z.of_nat (length leads), Some (header_row :: (row_data <$> leads))).
Proof.
  intros Hset Hread Happend.
  assert ((setup_exact_order_headers b0 s).1.2 = [header_row]) as ->.
  { revert Hset. unfold setup_exact_order_headers.
    destruct (open_by_key_result b0); [|done..].
    destruct (get_worksheet_result b0); [|done..].
    destruct (clear_result b0); [|done..].
    destruct (insert_row_result b0); [|done..].
    by destruct (format_result b0). }
  rewrite sync_some, Hread, Happend. cbv zeta.
  rewrite sheet_tokens_single_row.
  change (list_to_set []) with (∅ : gset read_value).
  rewrite fresh_leads_empty. by destruct leads.
Qed.

Lemma sync_after_header_setup_witness :
  sync_to_google_sheets backend_ok
    (Some (setup_exact_order_headers all_calls_return sheet_with_A).1.2)
    leads_A_B_B
    = (3, Some (header_row :: (row_data <$> leads_A_B_B))).
Proof.
  apply (sync_after_header_setup all_calls_return backend_ok sheet_with_A
           leads_A_B_B); reflexivity.
Defined.

(** X18: after a sync whose read and append return, on an initialised
    worksheet, the request token of every incoming lead whose token is
    not empty and reads back as written is among the tokens read from
    the worksheet. *)
Theorem sync_leaves_every_token (b : sync_backend) (s : list (list pyval))
    (leads : list (gmap string pyval)) (lead : gmap string pyval) :
  initialised s → read_succeeds b = true → append_succeeds b = true →
  lead ∈ leads → read_as_written (reading b) (request_token lead) →
  ∃ n s', sync_to_google_sheets b (Some s) leads = (n, Some s') ∧
          RVal (request_token lead) ∈ sheet_tokens (reading b) s'.
Proof.
  intros Hinit Hread Happend Hin Hwritten.
  set (fresh := fresh_leads (list_to_set (sheet_tokens (reading b) s)) leads).
  exists (Z.of_nat (length fresh)), (s ++ (row_data <$> fresh)).
  split; [|by apply token_after_append].
  rewrite sync_some, Hread, Happend. cbv zeta. fold fresh.
  destruct fresh; [|done]. simpl. by rewrite app_nil_r.
Qed.

Lemma sync_leaves_every_token_witness :
  ∃ n s', sync_to_google_sheets backend_ok (Some sheet_with_A) leads_A_B_B
            = (n, Some s') ∧
          RVal (request_token (lead_with_token "B"))
            ∈ sheet_tokens plain_reader s'.
Proof.
  apply (sync_leaves_every_token backend_ok sheet_with_A leads_A_B_B
           (lead_with_token "B")); [reflexivity..| |].
  - apply (bool_decide_unpack _). vm_compute. exact I.
  - apply (bool_decide_unpack _). vm_compute. exact I.
Defined.

End sync_any_backend.

Lemma records_of_lead_rows_witness :
  ∃ lead,
    [lead_with_token "A"; solo_city_tour] !! 1%nat = Some lead ∧
    dict_zip exact_order_headers
        (read_cell plain_reader <$> row_data solo_city_tour) !! "Pax"
      = Some (read_cell plain_reader
                (dict_get lead (field_of_header "Pax") (VStr ""))).
Proof.
  apply (records_of_lead_rows plain_reader
           [lead_with_token "A"; solo_city_tour] 1
           (dict_zip exact_order_headers
              (read_cell plain_reader <$> row_data solo_city_tour))
           "Pax").
  - reflexivity.
  - apply (bool_decide_unpack _). vm_compute. exact I.
Defined.

(** ** Header initializer, on every backend *)

Section setup_any_backend.

Variable b : setup_backend.
Variable s : list (list pyval).

(** X19: what the initializer leaves behind. Unless the spreadsheet is
    opened, its first worksheet obtained and the clearing done, the
    worksheet is untouched; when the clearing returns and the insertion
    raises, the worksheet is left empty, its former rows lost; when the
    insertion returns, the worksheet is the header row alone, also when
    the formatting then raises. Success is reported only when all five
    calls return. *)
Theorem setup_final_worksheet :
  (open_by_key_result b ≠ ApiOk ∨ get_worksheet_result b ≠ ApiOk ∨
   clear_result b ≠ ApiOk →
   (setup_exact_order_headers b s).1.2 = s ∧
   (setup_exact_order_headers b s).1.1 ≠ HeadersSet) ∧
  (open_by_key_result b = ApiOk → get_worksheet_result b = ApiOk →
   clear_result b = ApiOk → insert_row_result b ≠ ApiOk →
   (setup_exact_order_headers b s).1.2 = [] ∧
   (setup_exact_order_headers b s).1.1 ≠ HeadersSet) ∧
  (open_by_key_result b = ApiOk → get_worksheet_result b = ApiOk →
   clear_result b = ApiOk → insert_row_result b = ApiOk →
   (setup_exact_order_headers b s).1.2 = [header_row] ∧
   ((setup_exact_order_headers b s).1.1 = HeadersSet
      ↔ format_result b = ApiOk)).
Proof.
  unfold setup_exact_order_headers. split; [|split].
  - intros Hfail.
    destruct (open_by_key_result b); [|done..].
    destruct (get_worksheet_result b); [|done..].
    destruct (clear_result b); [|done..].
    by destruct Hfail as [?|[?|?]].
  - intros -> -> -> Hfail. by destruct (insert_row_result b).
  - intros -> -> -> ->. by destruct (format_result b).
Qed.

(** X20: the calls are issued in one fixed order and stop at the first
    that raises: the calls made are always an initial part of open,
    get worksheet 0, clear, insert the header row at row 1, format row 1.
    So nothing is inserted before the clearing and nothing is formatted
    before the insertion. *)
Theorem setup_call_order :
  (setup_exact_order_headers b s).2 `prefix_of`
    [OpenByKey SPREADSHEET_ID; GetWorksheet 0; SheetClear;
     SheetInsertRow header_row 1; SheetFormat "1:1"] ∧
  ((setup_exact_order_headers b s).1.1 = HeadersSet →
   (setup_exact_order_headers b s).2
     = [OpenByKey SPREADSHEET_ID; GetWorksheet 0; SheetClear;
        SheetInsertRow header_row 1; SheetFormat "1:1"]).
Proof.
  unfold setup_exact_order_headers. generalize header_row. intros top.
  destruct (open_by_key_result b); cbn; [|split; [by eexists|done]..].
  destruct (get_worksheet_result b); cbn; [|split; [by eexists|done]..].
  destruct (clear_result b); cbn; [|split; [by eexists|done]..].
  destruct (insert_row_result b); cbn; [|split; [by eexists|done]..].
  destruct (format_result b); cbn; (split; [by eexists|done]).
Qed.

End setup_any_backend.

Lemma setup_final_worksheet_witness :
  (setup_exact_order_headers spreadsheet_missing sheet_with_A).1.2
    = sheet_with_A ∧
  (setup_exact_order_headers clear_then_insert_raises sheet_with_A).1.2
    = [] ∧
  (setup_exact_order_headers format_raises sheet_with_A).1.2
    = [header_row].
Proof.
  split; [|split].
  - apply (proj1 (setup_final_worksheet spreadsheet_missing sheet_with_A)).
    left. discriminate.
  - apply (proj1 (proj2 (setup_final_worksheet clear_then_insert_raises
                           sheet_with_A)));
      [reflexivity..|discriminate].
  - apply (proj2 (proj2 (setup_final_worksheet format_raises
                           sheet_with_A))); reflexivity.
Defined.

Lemma setup_call_order_witness :
  (setup_exact_order_headers all_calls_return sheet_with_A).2
    = [OpenByKey SPREADSHEET_ID; GetWorksheet 0; SheetClear;
       SheetInsertRow header_row 1; SheetFormat "1:1"].
Proof.
  apply (proj2 (setup_call_order all_calls_return sheet_with_A)).
  reflexivity.
Defined.

(** ** Run controller *)

Section run.

Lemma traced_bind_fst {A B : Type} (m : traced A) (f : A → traced B) :
  (m ≫= f).1 = (f m.1).1.
Proof. unfold mbind, traced_bind. by destruct (f m.1). Qed.

Lemma traced_bind_snd {A B : Type} (m : traced A) (f : A → traced B) :
  (m ≫= f).2 = m.2 ++ (f m.1).2.
Proof. unfold mbind, traced_bind. by destruct (f m.1). Qed.

Lemma traced_eq {A : Type} (m : traced A) : m = (m.1, m.2).
Proof. by destruct m. Qed.

Lemma geolocation_is_geo_dict (env : environment) (ip_address : pyval) :
  ∃ country region city,
    (get_ip_geolocation env ip_address).1 = geo_dict country region city.
Proof.
  unfold get_ip_geolocation.
  destruct (negb (truthy ip_address) || _); [by eexists _, _, _|].
  destruct (http_get env (geo_url ip_address)) as [|status body];
    [by eexists _, _, _|].
  cbn. destruct (status =? 200); [|by eexists _, _, _].
  destruct body; by eexists _, _, _.
Qed.

Lemma geo_dict_index (country region city : pyval) :
  dict_index (geo_dict country region city) "country" = Some country ∧
  dict_index (geo_dict country region city) "region" = Some region ∧
  dict_index (geo_dict country region city) "city" = Some city.
Proof. unfold dict_index, geo_dict. by simplify_map_eq. Qed.

Lemma geolocation_fixed_address (env : environment) :
  ∃ country region city,
    get_ip_geolocation env (VStr "8.8.8.8")
      = (geo_dict country region city,
         [HttpGet "https://ipapi.co/8.8.8.8/json/" 10]).
Proof.
  destruct (geolocation_is_geo_dict env (VStr "8.8.8.8"))
    as (country & region & city & Hgeo).
  exists country, region, city.
  rewrite (traced_eq (get_ip_geolocation env (VStr "8.8.8.8"))), Hgeo.
  by rewrite geolocation_one_request.
Qed.

(** The enriched lead, given the resolver's answer. *)
Lemma enrich_lead_result (env : environment) (last_updated : string)
    (lead : gmap string pyval) :
  is_Some (lead !! "client_name") →
  ∃ country region city,
    enrich_lead env last_updated lead =
      (Some
         (<["last_updated" := VStr last_updated]>
         (<["profitability_flag" := VStr (check_profitability lead)]>
         (<["ip_city" := city]>
         (<["ip_region" := region]>
         (<["ip_country" := country]>
         (<["agent_recommendation" :=
              VStr (score_sales_agent
                      (dict_get lead "communications_count" (VInt 0))
                      (dict_get lead "request_status" (VStr ""))).2]>
         (<["agent_score" :=
              VInt (score_sales_agent
                      (dict_get lead "communications_count" (VInt 0))
                      (dict_get lead "request_status" (VStr ""))).1]>
            lead))))))),
       [HttpGet "https://ipapi.co/8.8.8.8/json/" 10]).
Proof.
  intros [name Hname]. unfold enrich_lead. unfold dict_index at 1.
  rewrite Hname.
  destruct (score_sales_agent _ _) as [agent_score agent_recommendation].
  destruct (geolocation_fixed_address env)
    as (country & region & city & ->).
  exists country, region, city.
  unfold mbind, traced_bind. simpl fst. simpl snd.
  destruct (geo_dict_index country region city) as (-> & -> & ->).
  reflexivity.
Qed.

(** X21: enriching a lead that has a client name never fails and sends
    exactly one request, for the fixed address 8.8.8.8 whatever the lead
    holds; a lead without a client name makes the turn raise before any
    request. *)
Theorem enrich_lead_outcome (env : environment) (last_updated : string)
    (lead : gmap string pyval) :
  (lead !! "client_name" = None →
   enrich_lead env last_updated lead = (None, [])) ∧
  (is_Some (lead !! "client_name") →
   ∃ enriched,
     enrich_lead env last_updated lead
       = (Some enriched, [HttpGet "https://ipapi.co/8.8.8.8/json/" 10])).
Proof.
  split.
  - intros Hname. unfold enrich_lead, dict_index. by rewrite Hname.
  - intros Hname.
    destruct (enrich_lead_result env last_updated lead Hname)
      as (country & region & city & ->).
    by eexists.
Qed.

Lemma enrich_lead_outcome_witness :
  enrich_lead env_live "2026-11-03 14:05:02" ∅ = (None, []) ∧
  ∃ enriched,
    enrich_lead env_offline "2026-11-03 14:05:02" (lead_with_token "A")
      = (Some enriched, [HttpGet "https://ipapi.co/8.8.8.8/json/" 10]).
Proof.
  split.
  - apply (proj1 (enrich_lead_outcome env_live "2026-11-03 14:05:02" ∅)).
    reflexivity.
  - apply (proj2 (enrich_lead_outcome env_offline "2026-11-03 14:05:02"
                    (lead_with_token "A"))).
    eexists. reflexivity.
Defined.

(** The fields outside the enrichment keys are untouched by the seven
    insertions. *)
Lemma enrichment_frame (lead : gmap string pyval)
    (v1 v2 v3 v4 v5 v6 v7 : pyval) (key : string) :
  key ∉ enrichment_keys →
  (<["last_updated" := v7]>
  (<["profitability_flag" := v6]>
  (<["ip_city" := v5]>
  (<["ip_region" := v4]>
  (<["ip_country" := v3]>
  (<["agent_recommendation" := v2]>
  (<["agent_score" := v1]> lead)))))) : gmap string pyval) !! key
    = lead !! key.
Proof.
  intros Hkey. unfold enrichment_keys in Hkey.
  rewrite !not_elem_of_cons in Hkey.
  destruct Hkey as (?&?&?&?&?&?&?&_).
  by rewrite !lookup_insert_ne.
Qed.

Lemma request_token_not_enriched : "request_token" ∉ enrichment_keys.
Proof.
  unfold enrichment_keys. rewrite !not_elem_of_cons.
  repeat split; try discriminate. apply not_elem_of_nil.
Qed.

(** X22: enrichment writes the seven enrichment fields and nothing else:
    every other field of the lead, the request token among them, is as
    before; the seven fields are all present afterwards; the agent score
    is an integer from 1 to 10, the profitability flag is the check of
    the lead as it was, and the time stamp is the one given. *)
Theorem enrich_lead_fields (env : environment) (last_updated : string)
    (lead enriched : gmap string pyval) (trace : list event) :
  enrich_lead env last_updated lead = (Some enriched, trace) →
  (∀ key, key ∉ enrichment_keys → enriched !! key = lead !! key) ∧
  request_token enriched = request_token lead ∧
  (∀ key, key ∈ enrichment_keys → is_Some (enriched !! key)) ∧
  (∃ score, enriched !! "agent_score" = Some (VInt score) ∧ 1 ≤ score ≤ 10) ∧
  enriched !! "profitability_flag" = Some (VStr (check_profitability lead)) ∧
  enriched !! "last_updated" = Some (VStr last_updated).
Proof.
  intros Henrich.
  assert (is_Some (lead !! "client_name")) as Hname.
  { destruct (lead !! "client_name") eqn:Hlookup; [by eexists|].
    unfold enrich_lead, dict_index in Henrich.
    rewrite Hlookup in Henrich. discriminate. }
  destruct (enrich_lead_result env last_updated lead Hname)
    as (country & region & city & Hresult).
  rewrite Hresult in Henrich. injection Henrich as <- _.
  split; [intros key Hkey; by apply enrichment_frame|]. split.
  { unfold request_token, dict_get.
    by rewrite enrichment_frame by apply request_token_not_enriched. }
  split.
  { intros key Hkey. unfold enrichment_keys in Hkey.
    rewrite !elem_of_cons, elem_of_nil in Hkey.
    destruct Hkey as [->|[->|[->|[->|[->|[->|[->|[]]]]]]]];
      simplify_map_eq; by eexists. }
  split; [|split; by simplify_map_eq].
  eexists. split; [by simplify_map_eq|]. apply score_range.
Qed.

End run.

Lemma enrich_lead_fields_witness :
  request_token enriched_A = request_token (lead_with_token "A") ∧
  enriched_A !! "last_updated" = Some (VStr "2026-11-03 14:05:02").
Proof.
  assert (enrich_lead env_offline "2026-11-03 14:05:02" (lead_with_token "A")
          = (Some enriched_A, [HttpGet "https://ipapi.co/8.8.8.8/json/" 10]))
    as Henrich by (vm_compute; reflexivity).
  split.
  - exact (proj1 (proj2 (enrich_lead_fields _ _ _ _ _ Henrich))).
  - exact (proj2 (proj2 (proj2 (proj2 (proj2
             (enrich_lead_fields _ _ _ _ _ Henrich)))))).
Defined.

(** ** Run controller, end to end *)

Lemma sample_lead_with_fields
    (row_number client_name submission_date file_no token lead_id : string) :
  sample_lead_with row_number client_name submission_date file_no token
    lead_id !! "client_name" = Some (VStr client_name) ∧
  request_token
    (sample_lead_with row_number client_name submission_date file_no token
       lead_id) = VStr token.
Proof. split; vm_compute; reflexivity. Qed.

Lemma add_sample_data_safe_sync (env : environment) (c : clock)
    (b : sync_backend) (self_sheet : option (list (list pyval))) :
  ∃ enriched,
    request_token enriched = sample_token c ∧
    add_sample_data_safe env c b self_sheet =
      ((0 <? (sync_to_google_sheets b self_sheet [enriched]).1,
        (sync_to_google_sheets b self_sheet [enriched]).2),
       [HttpGet "https://ipapi.co/8.8.8.8/json/" 10]).
Proof.
  destruct (sample_lead_with_fields
              (pretty (time_row_number c `mod` 1000))
              ("Test Client " +:+ now_hhmm c) (now_submission c)
              ("MT" +:+ pretty (time_file_no c))
              ("TEST" +:+ pretty (time_request_token c))
              ("TEST" +:+ pretty (time_lead_id c))) as [Hname Htoken].
  fold (sample_lead c) in Hname, Htoken.
  destruct (enrich_lead_result env (now_updated c) (sample_lead c))
    as (country & region & city & Hresult); [by eexists|].
  match type of Hresult with
  | _ = (Some ?e, _) =>
      assert (request_token e = VStr ("TEST" +:+ pretty (time_request_token c)))
        as Hkept
  end.
  { unfold request_token, dict_get.
    rewrite enrichment_frame by apply request_token_not_enriched.
    exact Htoken. }
  unfold add_sample_data_safe, sample_leads, enrich_leads.
  rewrite Hresult. clear Hresult.
  match type of Hkept with
  | request_token ?e = _ => generalize dependent e
  end.
  intros enriched Hkept. exists enriched. split; [exact Hkept|].
  unfold mbind, traced_bind, mret, traced_ret, fmap, option_fmap,
    option_map.
  cbn [fst snd app].
  by destruct (sync_to_google_sheets b self_sheet [enriched]).
Qed.

(** A sync of a single lead. *)
Lemma sync_single (b : sync_backend) (s : list (list pyval))
    (lead : gmap string pyval) :
  sync_to_google_sheets b (Some s) [lead] =
    if bool_decide (RVal (request_token lead) ∉
                      (if read_succeeds b
                       then list_to_set (sheet_tokens (reading b) s)
                       else ∅ : gset read_value))
       && append_succeeds b
    then (1, Some (s ++ [row_data lead]))
    else (0, Some s).
Proof.
  rewrite sync_some. cbv zeta. unfold fresh_leads.
  rewrite filter_cons, filter_nil.
  destruct (decide (RVal (request_token lead) ∉ _)) as [Hnew|Hold].
  - rewrite bool_decide_eq_true_2 by done.
    destruct (append_succeeds b); reflexivity.
  - by rewrite bool_decide_eq_false_2.
Qed.

Lemma setup_google_sheets_connects (k : connect_backend)
    (remote : list (list pyval)) :
  (setup_google_sheets k remote None).1 = connects k ∧
  (connects k = true →
   (setup_google_sheets k remote None).2 = Some remote) ∧
  remote_after remote (setup_google_sheets k remote None).2 = remote.
Proof.
  unfold setup_google_sheets, connects.
  destruct (credentials_load k), (authorize_returns k),
    (open_spreadsheet_returns k), (get_first_worksheet k),
    (first_cell_readable k); done.
Qed.

(** The run in one formula. *)
Lemma run_sync_unfold (env : environment) (c : clock) (k : connect_backend)
    (b : sync_backend) (remote : list (list pyval)) :
  ∃ enriched,
    request_token enriched = sample_token c ∧
    run_sync env c k b remote =
      if (check_prerequisites env).1 && connects k then
        (if bool_decide (RVal (request_token enriched) ∉
                           (if read_succeeds b
                            then list_to_set
                                   (sheet_tokens (reading b) remote)
                            else ∅ : gset read_value))
            && append_succeeds b
         then (true, remote ++ [row_data enriched])
         else (false, remote),
         (check_prerequisites env).2
           ++ [HttpGet "https://ipapi.co/8.8.8.8/json/" 10])
      else ((false, remote), (check_prerequisites env).2).
Proof.
  destruct (add_sample_data_safe_sync env c b (Some remote))
    as (enriched & Htoken & Hadd).
  exists enriched. split; [done|].
  destruct (setup_google_sheets_connects k remote) as (Hok & Hsome & Hrest).
  unfold run_sync.
  destruct (check_prerequisites env) as [[] trace];
    unfold mbind, traced_bind, mret, traced_ret; cbn [fst snd negb andb];
    [|by rewrite app_nil_r].
  destruct (setup_google_sheets k remote None) as [ok self_sheet].
  cbn [fst snd] in Hok, Hsome, Hrest. subst ok.
  destruct (connects k); cbn [negb];
    [|by rewrite Hrest, app_nil_r].
  rewrite (Hsome eq_refl), Hadd, sync_single.
  destruct (bool_decide _ && append_succeeds b);
    cbn [fst snd negb Z.ltb Z.compare remote_after];
    by rewrite app_nil_r.
Qed.

(** X23: a run changes the worksheet in one way only. Either it returns
    false and the worksheet is exactly as before, or it returns true and
    the worksheet has gained exactly one row, of 55 cells, whose request
    token cell is "TEST" followed by the clock reading. *)
Theorem run_sync_outcome (env : environment) (c : clock) (k : connect_backend)
    (b : sync_backend) (remote : list (list pyval)) :
  (run_sync env c k b remote).1 = (false, remote) ∨
  ∃ row,
    (run_sync env c k b remote).1 = (true, remote ++ [row]) ∧
    length row = 55%nat ∧
    row !! 30%nat = Some (VStr ("TEST" +:+ pretty (time_request_token c))).
Proof.
  destruct (run_sync_unfold env c k b remote) as (enriched & Htoken & ->).
  destruct ((check_prerequisites env).1 && connects k); [|by left].
  destruct (bool_decide _ && append_succeeds b); [|by left].
  right. exists (row_data enriched). split; [done|]. split; [done|].
  change (row_data enriched !! 30%nat) with (Some (request_token enriched)).
  by rewrite Htoken.
Qed.

(** X24: the stages of a run are tried in order and each one can stop
    it. When the prerequisites fail, the run returns false after the
    calls of the prerequisite check alone; when the connection to the
    spreadsheet fails, it returns false without a geolocation request;
    when the append raises, it returns false; in all three cases the
    worksheet is unchanged. A run that returns true has passed the
    prerequisite check, connected, and appended. *)
Theorem run_sync_stages (env : environment) (c : clock) (k : connect_backend)
    (b : sync_backend) (remote : list (list pyval)) :
  ((check_prerequisites env).1 = false →
   run_sync env c k b remote = ((false, remote), (check_prerequisites env).2)) ∧
  ((setup_google_sheets k remote None).1 = false →
   run_sync env c k b remote = ((false, remote), (check_prerequisites env).2)) ∧
  (append_succeeds b = false →
   (run_sync env c k b remote).1 = (false, remote)) ∧
  ((run_sync env c k b remote).1.1 = true →
   (check_prerequisites env).1 = true ∧
   (setup_google_sheets k remote None).1 = true ∧
   append_succeeds b = true).
Proof.
  destruct (run_sync_unfold env c k b remote) as (enriched & _ & ->).
  rewrite (proj1 (setup_google_sheets_connects k remote)).
  split; [|split; [|split]].
  - by intros ->.
  - intros ->. by rewrite andb_false_r.
  - intros ->. rewrite andb_false_r.
    by destruct ((check_prerequisites env).1 && connects k).
  - destruct (check_prerequisites env).1, (connects k),
      (append_succeeds b); try done; cbn [andb fst snd];
      rewrite ?andb_false_r; done.
Qed.

(** X25: the sample lead is keyed by the clock: on an initialised
    worksheet, once a run has returned true, a later run whose clock
    gives the same reading for the request token, and whose read of the
    existing rows returns, appends nothing and returns false, although
    nothing has gone wrong. *)
Theorem run_sync_same_reading_again (env1 env2 : environment) (c1 c2 : clock)
    (k1 k2 : connect_backend) (b1 b2 : sync_backend)
    (remote remote1 : list (list pyval)) :
  initialised remote →
  (run_sync env1 c1 k1 b1 remote).1 = (true, remote1) →
  read_succeeds b2 = true →
  time_request_token c2 = time_request_token c1 →
  (run_sync env2 c2 k2 b2 remote1).1 = (false, remote1).
Proof.
  intros Hinit Hrun1 Hread Hclock.
  destruct (run_sync_unfold env1 c1 k1 b1 remote)
    as (lead1 & Htoken1 & Hunfold1).
  rewrite Hunfold1 in Hrun1. clear Hunfold1.
  destruct ((check_prerequisites env1).1 && connects k1); [|done].
  destruct (bool_decide _ && append_succeeds b1); [|done].
  injection Hrun1 as <-.
  destruct (run_sync_unfold env2 c2 k2 b2 (remote ++ [row_data lead1]))
    as (lead2 & Htoken2 & ->).
  destruct ((check_prerequisites env2).1 && connects k2); [|done].
  rewrite Hread, bool_decide_eq_false_2; [done|].
  intros Hnew. apply Hnew. rewrite elem_of_list_to_set.
  change [row_data lead1] with (row_data <$> [lead1]).
  rewrite (sheet_tokens_append (reading b2) remote [lead1]) by done.
  rewrite elem_of_app. right. apply list_elem_of_singleton.
  rewrite Htoken1, Htoken2. unfold sample_token.
  by rewrite Hclock, sample_token_read.
Qed.

(** X26: what the monitor sees matches the worksheet: [main] prints
    "SUCCESS" and ends with status 0 exactly when one row was appended;
    otherwise it prints "FAILED", ends with status 1, and the worksheet
    is as before. *)
Theorem main_exit_status (env : environment) (c : clock) (k : connect_backend)
    (b : sync_backend) (remote : list (list pyval)) :
  (main env c k b remote).1 = ("FAILED", 1, remote) ∨
  ∃ row, (main env c k b remote).1 = ("SUCCESS", 0, remote ++ [row]).
Proof.
  unfold main. rewrite traced_bind_fst.
  destruct (run_sync_unfold env c k b remote) as (enriched & _ & ->).
  destruct ((check_prerequisites env).1 && connects k); [|by left].
  destruct (bool_decide _ && append_succeeds b); [|by left].
  right. by exists (row_data enriched).
Qed.

Lemma run_sync_stages_witness :
  run_sync env_no_file clock_1 connect_ok backend_ok sheet_with_A
    = ((false, sheet_with_A), (check_prerequisites env_no_file).2) ∧
  run_sync env_live clock_1 connect_no_cell backend_ok sheet_with_A
    = ((false, sheet_with_A), (check_prerequisites env_live).2) ∧
  (run_sync env_live clock_1 connect_ok backend_append_fails sheet_with_A).1
    = (false, sheet_with_A) ∧
  append_succeeds backend_ok = true.
Proof.
  split; [|split; [|split]].
  - apply (proj1 (run_sync_stages env_no_file clock_1 connect_ok backend_ok
                    sheet_with_A)).
    reflexivity.
  - apply (proj1 (proj2 (run_sync_stages env_live clock_1 connect_no_cell
                           backend_ok sheet_with_A))).
    reflexivity.
  - apply (proj1 (proj2 (proj2 (run_sync_stages env_live clock_1 connect_ok
                                  backend_append_fails sheet_with_A)))).
    reflexivity.
  - apply (proj2 (proj2 (proj2 (run_sync_stages env_live clock_1 connect_ok
                                  backend_ok sheet_with_A)))).
    vm_compute. reflexivity.
Defined.

Lemma run_sync_same_reading_again_witness :
  (run_sync env_live clock_1 connect_ok backend_ok
     (run_sync env_live clock_1 connect_ok backend_ok [header_row]).1.2).1
    = (false,
       (run_sync env_live clock_1 connect_ok backend_ok [header_row]).1.2).
Proof.
  apply (run_sync_same_reading_again env_live env_live clock_1 clock_1
           connect_ok connect_ok backend_ok backend_ok [header_row]).
  - reflexivity.
  - vm_compute. reflexivity.
  - reflexivity.
  - reflexivity.
Defined.

(** ** Prerequisite checker, the passing case *)

(** X27: the checker returns true exactly when the credentials file
    exists and loads as JSON, the three packages import, and the request
    to the known host returns a response; the status code of that
    response plays no part. It then has made its six calls in order:
    the file test, the load, the imports of gspread, google and
    requests, and the request with a timeout of 10. *)
Theorem check_prerequisites_passes_iff (env : environment) :
  ((check_prerequisites env).1 = true ↔
   path_exists env SERVICE_ACCOUNT_FILE = true ∧
   json_loads env SERVICE_ACCOUNT_FILE = true ∧
   (∀ package, package ∈ required_packages →
      import_module env package = Imported) ∧
   http_get env connectivity_url ≠ HttpRaised) ∧
  ((check_prerequisites env).1 = true →
   (check_prerequisites env).2
     = [PathExists SERVICE_ACCOUNT_FILE; LoadJson SERVICE_ACCOUNT_FILE;
        ImportModule "gspread"; ImportModule "google";
        ImportModule "requests"; HttpGet connectivity_url 10]).
Proof.
  assert ((check_prerequisites env).1 = true →
          path_exists env SERVICE_ACCOUNT_FILE = true ∧
          json_loads env SERVICE_ACCOUNT_FILE = true ∧
          (∀ package, package ∈ required_packages →
             import_module env package = Imported) ∧
          http_get env connectivity_url ≠ HttpRaised) as Hnecessary.
  { intros Hpass. unfold check_prerequisites in Hpass.
    destruct (path_exists env SERVICE_ACCOUNT_FILE); [|done].
    destruct (json_loads env SERVICE_ACCOUNT_FILE); [|done].
    split; [done|]. split; [done|]. split.
    - intros package Hin.
      destruct (import_module env package) eqn:Himport; [done|..];
        (assert (import_module env package ≠ Imported) as Hne
           by (rewrite Himport; discriminate));
        pose proof (check_packages_failure env _ _ Hin Hne) as Hfalse;
        destruct (check_packages env required_packages) as [ok trace];
        cbn [fst] in Hfalse; by subst ok.
    - intros Hnet.
      destruct (check_packages env required_packages) as [[] trace];
        [|done].
      cbn in Hpass. by rewrite Hnet in Hpass. }
  assert (path_exists env SERVICE_ACCOUNT_FILE = true →
          json_loads env SERVICE_ACCOUNT_FILE = true →
          (∀ package, package ∈ required_packages →
             import_module env package = Imported) →
          http_get env connectivity_url ≠ HttpRaised →
          check_prerequisites env
            = (true,
               [PathExists SERVICE_ACCOUNT_FILE;
                LoadJson SERVICE_ACCOUNT_FILE;
                ImportModule "gspread"; ImportModule "google";
                ImportModule "requests"; HttpGet connectivity_url 10]))
    as Hsufficient.
  { intros Hfile Hjson Hpackages Hnet. unfold check_prerequisites.
    rewrite Hfile, Hjson, (check_packages_success env _ Hpackages).
    destruct (http_get env connectivity_url); [done|]. reflexivity. }
  split; [split|].
  - exact Hnecessary.
  - intros (Hfile & Hjson & Hpackages & Hnet).
    by rewrite Hsufficient.
  - intros Hpass. destruct (Hnecessary Hpass) as (? & ? & ? & ?).
    by rewrite Hsufficient.
Qed.

Lemma check_prerequisites_passes_iff_witness :
  (check_prerequisites (env_status 503)).2
    = [PathExists SERVICE_ACCOUNT_FILE; LoadJson SERVICE_ACCOUNT_FILE;
       ImportModule "gspread"; ImportModule "google";
       ImportModule "requests"; HttpGet connectivity_url 10].
Proof.
  apply (proj2 (check_prerequisites_passes_iff (env_status 503))).
  reflexivity.
Defined.
